(** * pkg/controller/sync: one reconciliation pass of a ManagedCertificate

    A shallow embedding of [sync.go].  The methods of [syncImpl] talk to six
    collaborators through Go interfaces (lister, state, random, ssl, metrics,
    client).  A method is embedded as a program over the calls it issues; an
    interpreter runs a program against any implementation of the
    collaborators and records every call with its answer in a trace.  The
    properties of the pass are statements about such runs. *)

From stdpp Require Import base option list gmap strings.

(** ** Identities (utils/types) *)

(** types.CertId: the (namespace, name) key of a ManagedCertificate. *)
Record CertId := mkCertId { Namespace : string; Name : string }.

#[global] Instance CertId_eq_dec : EqDecision CertId.
Proof. solve_decision. Defined.

#[global] Instance CertId_countable : Countable CertId.
Proof.
  refine (inj_countable' (λ i, (Namespace i, Name i))
                         (λ p, mkCertId p.1 p.2) _).
  by intros [].
Defined.

(** ** What [sync.go] imports

    The packages below are used by [sync.go] and their code is not part of
    the embedded file; they are parameters of the development.  A Go value
    of type [error] that is not nil is a value of [error]; a Go function
    returning [(T, error)] returns [T + error] (the code never reads the
    value when the error is not nil), one returning [error] returns
    [option error] with [None] for nil. *)
Class Packages := {
  (** Go's error values, compared with [==] against the sentinels. *)
  error : Type;
  error_eq_dec :: EqDecision error;
  (** package errors *)
  errors_ErrManagedCertificateNotFound : error;
  errors_ErrSslCertificateOutOfSyncGotDeleted : error;
  (** utils/http: IsNotFound on an error that is not nil (it is false on nil) *)
  http_IsNotFound : error → bool;
  (** apisv1beta2.ManagedCertificate, compute.SslCertificate, time.Time *)
  apis_ManagedCertificate : Type;
  compute_SslCertificate : Type;
  time_Time : Type;
  (** mcrt.Namespace *)
  mcrt_Namespace : apis_ManagedCertificate → string;
  (** time.Parse(time.RFC3339, mcrt.CreationTimestamp.Format(time.RFC3339)) *)
  mcrt_CreationTime : apis_ManagedCertificate → time_Time + error;
  (** certificates.Equal(mcrt, sslCert) *)
  certificates_Equal : apis_ManagedCertificate → compute_SslCertificate → bool;
  (** certificates.CopyStatus(sslCert, mcrt, s.config): the ManagedCertificate
      with its status overwritten, and the error returned. *)
  certificates_CopyStatus :
    compute_SslCertificate → apis_ManagedCertificate →
    apis_ManagedCertificate * option error
}.

Section Embedding.
Context `{Packages}.

(** Modelled from the spec: utils/http is not under src/.  A delete that
    answers "resource not found" counts as a successful delete; every other
    error is handed back as it is, and nil stays nil. *)
Definition http_IgnoreNotFound (err : option error) : option error :=
  match err with
  | Some e => if http_IsNotFound e then None else Some e
  | None => None
  end.

(** ** Calls to the collaborators

    One constructor per interface method that [sync.go] calls, indexed by
    the type of the answer.  The context argument of Create and Delete is
    not modelled.  A [*ManagedCertificate] that may be nil is an option. *)
Inductive Call : Type → Type :=
  (* s.lister.ManagedCertificates(namespace).Get(name) *)
  | Lister_Get (namespace name : string) : Call (apis_ManagedCertificate + error)
  (* state.State *)
  | State_GetSslCertificateName (id : CertId) : Call (string + error)
  | State_SetSslCertificateName (id : CertId) (sslCertificateName : string) : Call unit
  | State_IsExcludedFromSLO (id : CertId) : Call (bool + error)
  | State_IsSslCertificateCreationReported (id : CertId) : Call (bool + error)
  | State_SetSslCertificateCreationReported (id : CertId) : Call (option error)
  | State_SetSoftDeleted (id : CertId) : Call (option error)
  | State_IsSoftDeleted (id : CertId) : Call (bool + error)
  | State_Delete (id : CertId) : Call unit
  (* random.Random *)
  | Random_Name : Call (string + error)
  (* sslcertificatemanager.SslCertificateManager *)
  | Ssl_Exists (sslCertificateName : string) (mcrt : option apis_ManagedCertificate)
      : Call (bool + error)
  | Ssl_Create (sslCertificateName : string) (mcrt : apis_ManagedCertificate)
      : Call (option error)
  | Ssl_Get (sslCertificateName : string) (mcrt : option apis_ManagedCertificate)
      : Call (compute_SslCertificate + error)
  | Ssl_Delete (sslCertificateName : string) (mcrt : option apis_ManagedCertificate)
      : Call (option error)
  (* metrics.Metrics *)
  | Metrics_ObserveSslCertificateCreationLatency (creationTime : time_Time) : Call unit
  (* s.client.ManagedCertificates(namespace).Update(mcrt) *)
  | Client_Update (namespace : string) (mcrt : apis_ManagedCertificate)
      : Call (option error).

(** A program: a finite tree of calls, each continued by its answer. *)
Inductive Prog (A : Type) : Type :=
  | Ret (a : A)
  | Do {X : Type} (c : Call X) (k : X → Prog A).
Global Arguments Ret {A} a.
Global Arguments Do {A X} c k.

Fixpoint bind {A B : Type} (p : Prog A) (f : A → Prog B) : Prog B :=
  match p with
  | Ret a => f a
  | Do c k => Do c (λ x, bind (k x) f)
  end.

Definition call {X : Type} (c : Call X) : Prog X := Do c Ret.

#[global] Instance Prog_ret : MRet Prog := @Ret.
#[global] Instance Prog_bind : MBind Prog := λ A B f p, bind p f.

(** ** The methods of [syncImpl] *)

Definition ensureSslCertificateName (id : CertId) : Prog (string + error) :=
  r ← call (State_GetSslCertificateName id);
  match r with
  | inl sslCertificateName => mret (inl sslCertificateName)
  | inr _ =>
      r ← call Random_Name;
      match r with
      | inr err => mret (inr err)
      | inl sslCertificateName =>
          _ ← call (State_SetSslCertificateName id sslCertificateName);
          mret (inl sslCertificateName)
      end
  end.

Definition observeSslCertificateCreationLatencyIfNeeded
    (sslCertificateName : string) (id : CertId) (mcrt : apis_ManagedCertificate)
    : Prog (option error) :=
  r ← call (State_IsExcludedFromSLO id);
  match r with
  | inr err => mret (Some err)
  | inl true => mret None
  | inl false =>
      r ← call (State_IsSslCertificateCreationReported id);
      match r with
      | inr err => mret (Some err)
      | inl true => mret None
      | inl false =>
          match mcrt_CreationTime mcrt with
          | inr err => mret (Some err)
          | inl creationTime =>
              _ ← call (Metrics_ObserveSslCertificateCreationLatency creationTime);
              err ← call (State_SetSslCertificateCreationReported id);
              match err with
              | Some e => mret (Some e)
              | None => mret None
              end
          end
      end
  end.

Definition deleteSslCertificate (mcrt : option apis_ManagedCertificate)
    (id : CertId) (sslCertificateName : string) : Prog (option error) :=
  err ← call (State_SetSoftDeleted id);
  match err with
  | Some e => mret (Some e)
  | None =>
      err ← call (Ssl_Delete sslCertificateName mcrt);
      match http_IgnoreNotFound err with
      | Some e => mret (Some e)
      | None =>
          _ ← call (State_Delete id);
          mret None
      end
  end.

Definition ensureSslCertificate (sslCertificateName : string) (id : CertId)
    (mcrt : apis_ManagedCertificate) : Prog (compute_SslCertificate + error) :=
  r ← call (Ssl_Exists sslCertificateName (Some mcrt));
  match r with
  | inr err => mret (inr err)
  | inl exists_ =>
      err ← (if negb exists_ then
               err ← call (Ssl_Create sslCertificateName mcrt);
               match err with
               | Some e => mret (Some e)
               | None =>
                   observeSslCertificateCreationLatencyIfNeeded
                     sslCertificateName id mcrt
               end
             else mret None);
      match err with
      | Some e => mret (inr e)
      | None =>
          r ← call (Ssl_Get sslCertificateName (Some mcrt));
          match r with
          | inr err => mret (inr err)
          | inl sslCert =>
              if certificates_Equal mcrt sslCert then mret (inl sslCert)
              else
                err ← deleteSslCertificate (Some mcrt) id sslCertificateName;
                match err with
                | Some e => mret (inr e)
                | None => mret (inr errors_ErrSslCertificateOutOfSyncGotDeleted)
                end
          end
      end
  end.

Definition ManagedCertificate (id : CertId) : Prog (option error) :=
  r ← call (Lister_Get (Namespace id) (Name id));
  match r with
  | inr err =>
      if http_IsNotFound err then
        r ← call (State_GetSslCertificateName id);
        match r with
        | inr err =>
            if decide (err = errors_ErrManagedCertificateNotFound) then mret None
            else mret (Some err)
        | inl sslCertificateName =>
            deleteSslCertificate None id sslCertificateName
        end
      else mret (Some err)
  | inl mcrt =>
      r ← ensureSslCertificateName id;
      match r with
      | inr err => mret (Some err)
      | inl sslCertificateName =>
          r ← call (State_IsSoftDeleted id);
          match r with
          | inr err => mret (Some err)
          | inl true => deleteSslCertificate (Some mcrt) id sslCertificateName
          | inl false =>
              r ← ensureSslCertificate sslCertificateName id mcrt;
              match r with
              | inr err => mret (Some err)
              | inl sslCert =>
                  match certificates_CopyStatus sslCert mcrt with
                  | (_, Some err) => mret (Some err)
                  | (mcrt', None) =>
                      call (Client_Update (mcrt_Namespace mcrt') mcrt')
                  end
              end
          end
      end
  end.

(** ** Running a program against the collaborators *)

(** A call together with the answer it got. *)
Inductive Event : Type :=
  | EListerGet (namespace name : string) (r : apis_ManagedCertificate + error)
  | EGetSslCertificateName (id : CertId) (r : string + error)
  | ESetSslCertificateName (id : CertId) (sslCertificateName : string)
  | EIsExcludedFromSLO (id : CertId) (r : bool + error)
  | EIsSslCertificateCreationReported (id : CertId) (r : bool + error)
  | ESetSslCertificateCreationReported (id : CertId) (r : option error)
  | ESetSoftDeleted (id : CertId) (r : option error)
  | EIsSoftDeleted (id : CertId) (r : bool + error)
  | EStateDelete (id : CertId)
  | ERandomName (r : string + error)
  | ESslExists (sslCertificateName : string) (mcrt : option apis_ManagedCertificate)
      (r : bool + error)
  | ESslCreate (sslCertificateName : string) (mcrt : apis_ManagedCertificate)
      (r : option error)
  | ESslGet (sslCertificateName : string) (mcrt : option apis_ManagedCertificate)
      (r : compute_SslCertificate + error)
  | ESslDelete (sslCertificateName : string) (mcrt : option apis_ManagedCertificate)
      (r : option error)
  | EObserveSslCertificateCreationLatency (creationTime : time_Time)
  | EClientUpdate (namespace : string) (mcrt : apis_ManagedCertificate)
      (r : option error).

Definition log {X : Type} (c : Call X) : X → Event :=
  match c in Call X return X → Event with
  | Lister_Get ns n => EListerGet ns n
  | State_GetSslCertificateName id => EGetSslCertificateName id
  | State_SetSslCertificateName id n => λ _, ESetSslCertificateName id n
  | State_IsExcludedFromSLO id => EIsExcludedFromSLO id
  | State_IsSslCertificateCreationReported id => EIsSslCertificateCreationReported id
  | State_SetSslCertificateCreationReported id => ESetSslCertificateCreationReported id
  | State_SetSoftDeleted id => ESetSoftDeleted id
  | State_IsSoftDeleted id => EIsSoftDeleted id
  | State_Delete id => λ _, EStateDelete id
  | Random_Name => ERandomName
  | Ssl_Exists n m => ESslExists n m
  | Ssl_Create n m => ESslCreate n m
  | Ssl_Get n m => ESslGet n m
  | Ssl_Delete n m => ESslDelete n m
  | Metrics_ObserveSslCertificateCreationLatency t =>
      λ _, EObserveSslCertificateCreationLatency t
  | Client_Update ns m => EClientUpdate ns m
  end.

(** An implementation of the collaborators over a world [W]: every call
    gets an answer and leaves a new world. *)
Definition Handler (W : Type) : Type := ∀ X : Type, Call X → W → X * W.

(** What a run leaves: the value returned, the world, the calls issued. *)
Record Outcome (A W : Type) : Type :=
  mkOutcome { result : A; world : W; trace : list Event }.
Global Arguments mkOutcome {A W} _ _ _.
Global Arguments result {A W} _.
Global Arguments world {A W} _.
Global Arguments trace {A W} _.

Fixpoint run {A W : Type} (h : Handler W) (p : Prog A) (w : W) : Outcome A W :=
  match p with
  | Ret a => mkOutcome a w []
  | Do c k =>
      let o := run h (k (h _ c w).1) (h _ c w).2 in
      mkOutcome (result o) (world o) (log c (h _ c w).1 :: trace o)
  end.

(** Passes one after the other on the same world: the errors returned and
    the calls of all the passes, in order. *)
Fixpoint passes {W : Type} (h : Handler W) (ids : list CertId) (w : W)
    : Outcome (list (option error)) W :=
  match ids with
  | [] => mkOutcome [] w []
  | id :: ids' =>
      let o := run h (ManagedCertificate id) w in
      let os := passes h ids' (world o) in
      mkOutcome (result o :: result os) (world os) (trace o ++ trace os)
  end.

(** ** Reading a trace *)

(** The error, if any, that a call to the State Store or to the External
    Resource Manager came back with. *)
Definition collaborator_error (ev : Event) : option error :=
  match ev with
  | EGetSslCertificateName _ (inr e)
  | EIsExcludedFromSLO _ (inr e)
  | EIsSslCertificateCreationReported _ (inr e)
  | EIsSoftDeleted _ (inr e)
  | ESslExists _ _ (inr e)
  | ESslGet _ _ (inr e) => Some e
  | ESetSslCertificateCreationReported _ (Some e)
  | ESetSoftDeleted _ (Some e)
  | ESslCreate _ _ (Some e)
  | ESslDelete _ _ (Some e) => Some e
  | _ => None
  end.

Definition name_lookup (ev : Event) : bool :=
  match ev with EGetSslCertificateName _ _ => true | _ => false end.

(** The remote delete answering "not found". *)
Definition not_found_on_delete (ev : Event) : bool :=
  match ev with
  | ESslDelete _ _ (Some e) => http_IsNotFound e
  | _ => false
  end.

(** Calls to the External Resource Manager. *)
Definition ssl_call (ev : Event) : bool :=
  match ev with
  | ESslExists _ _ _ | ESslCreate _ _ _ | ESslGet _ _ _ | ESslDelete _ _ _ => true
  | _ => false
  end.

(** Calls that change the State Store. *)
Definition state_write (ev : Event) : bool :=
  match ev with
  | ESetSslCertificateName _ _ | ESetSslCertificateCreationReported _ _
  | ESetSoftDeleted _ _ | EStateDelete _ => true
  | _ => false
  end.

Definition is_create (ev : Event) : bool :=
  match ev with ESslCreate _ _ _ => true | _ => false end.

Definition is_observe (ev : Event) : bool :=
  match ev with EObserveSslCertificateCreationLatency _ => true | _ => false end.

Definition is_update (ev : Event) : bool :=
  match ev with EClientUpdate _ _ _ => true | _ => false end.

(** ** The State Store *)

(** Modelled from the spec: pkg/controller/state is not under src/.  The
    store keeps, per tracked identity, the assigned external name and the
    three lifecycle flags. *)
Record StateEntry : Type := mkStateEntry {
  SslCertificateName : string;
  SoftDeleted : bool;
  ExcludedFromSLO : bool;
  SslCertificateCreationReported : bool
}.

(** Modelled from the spec: pkg/controller/state is not under src/.  The
    in-memory store: a map from identities to entries.  Reading the name of
    an identity without an entry fails with the NotTracked error
    (errors.ErrManagedCertificateNotFound), and so does reading or setting a
    flag; setting a name creates the entry, flags down, when there is none
    and keeps the flags otherwise; Delete removes the entry. *)
Definition flag_of (st : gmap CertId StateEntry) (id : CertId)
    (f : StateEntry → bool) : bool + error :=
  match st !! id with
  | Some e => inl (f e)
  | None => inr errors_ErrManagedCertificateNotFound
  end.

Definition set_flag (st : gmap CertId StateEntry) (id : CertId)
    (f : StateEntry → StateEntry) : option error * gmap CertId StateEntry :=
  match st !! id with
  | Some e => (None, <[id := f e]> st)
  | None => (Some errors_ErrManagedCertificateNotFound, st)
  end.

Definition set_name (st : gmap CertId StateEntry) (id : CertId) (n : string)
    : gmap CertId StateEntry :=
  match st !! id with
  | Some e =>
      <[id := mkStateEntry n (SoftDeleted e) (ExcludedFromSLO e)
                (SslCertificateCreationReported e)]> st
  | None => <[id := mkStateEntry n false false false]> st
  end.

Definition mark_soft_deleted (e : StateEntry) : StateEntry :=
  mkStateEntry (SslCertificateName e) true (ExcludedFromSLO e)
    (SslCertificateCreationReported e).

Definition mark_reported (e : StateEntry) : StateEntry :=
  mkStateEntry (SslCertificateName e) (SoftDeleted e) (ExcludedFromSLO e) true.

(** The collaborators with the in-memory store as their State and [ext],
    over a world of its own, as all the others. *)
Definition withState {E : Type} (ext : Handler E)
    : Handler (gmap CertId StateEntry * E) :=
  λ X c w,
    match c in Call X return X * (gmap CertId StateEntry * E) with
    | State_GetSslCertificateName id =>
        (match w.1 !! id with
         | Some e => inl (SslCertificateName e)
         | None => inr errors_ErrManagedCertificateNotFound
         end, w)
    | State_SetSslCertificateName id n => (tt, (set_name w.1 id n, w.2))
    | State_IsExcludedFromSLO id => (flag_of w.1 id ExcludedFromSLO, w)
    | State_IsSslCertificateCreationReported id =>
        (flag_of w.1 id SslCertificateCreationReported, w)
    | State_SetSslCertificateCreationReported id =>
        ((set_flag w.1 id mark_reported).1, ((set_flag w.1 id mark_reported).2, w.2))
    | State_SetSoftDeleted id =>
        ((set_flag w.1 id mark_soft_deleted).1,
         ((set_flag w.1 id mark_soft_deleted).2, w.2))
    | State_IsSoftDeleted id => (flag_of w.1 id SoftDeleted, w)
    | State_Delete id => (tt, (delete id w.1, w.2))
    | c' => ((ext _ c' w.2).1, (w.1, (ext _ c' w.2).2))
    end.

(** The flags of an identity as the in-memory store has them; an identity
    without an entry has none set. *)
Definition reported (st : gmap CertId StateEntry) (id : CertId) : bool :=
  match st !! id with
  | Some e => SslCertificateCreationReported e
  | None => false
  end.

Definition excluded (st : gmap CertId StateEntry) (id : CertId) : bool :=
  match st !! id with
  | Some e => ExcludedFromSLO e
  | None => false
  end.

(** The same call made [k] times in a row, with the values returned. *)
Fixpoint repeatedly {A : Type} (k : nat) (p : Prog A) : Prog (list A) :=
  match k with
  | 0 => mret []
  | S k' => a ← p; l ← repeatedly k' p; mret (a :: l)
  end.

(** ** More ways of reading a trace *)

(** The identity a State Store call is about. *)
Definition state_id (ev : Event) : option CertId :=
  match ev with
  | EGetSslCertificateName id _ | ESetSslCertificateName id _
  | EIsExcludedFromSLO id _ | EIsSslCertificateCreationReported id _
  | ESetSslCertificateCreationReported id _ | ESetSoftDeleted id _
  | EIsSoftDeleted id _ | EStateDelete id => Some id
  | _ => None
  end.

(** The name a call to the External Resource Manager is about. *)
Definition ssl_name (ev : Event) : option string :=
  match ev with
  | ESslExists n _ _ | ESslCreate n _ _ | ESslGet n _ _ | ESslDelete n _ _ => Some n
  | _ => None
  end.

Definition is_delete (ev : Event) : bool :=
  match ev with ESslDelete _ _ _ => true | _ => false end.

Definition is_lister (ev : Event) : bool :=
  match ev with EListerGet _ _ _ => true | _ => false end.

Definition is_report (ev : Event) : bool :=
  match ev with ESetSslCertificateCreationReported _ _ => true | _ => false end.

(** Calls that make or store a name. *)
Definition is_naming (ev : Event) : bool :=
  match ev with
  | ERandomName _ | ESetSslCertificateName _ _ => true
  | _ => false
  end.

(** The interface method of a call, numbered as [Call] lists them. *)
Definition method (ev : Event) : nat :=
  match ev with
  | EListerGet _ _ _ => 0
  | EGetSslCertificateName _ _ => 1
  | ESetSslCertificateName _ _ => 2
  | EIsExcludedFromSLO _ _ => 3
  | EIsSslCertificateCreationReported _ _ => 4
  | ESetSslCertificateCreationReported _ _ => 5
  | ESetSoftDeleted _ _ => 6
  | EIsSoftDeleted _ _ => 7
  | EStateDelete _ => 8
  | ERandomName _ => 9
  | ESslExists _ _ _ => 10
  | ESslCreate _ _ _ => 11
  | ESslGet _ _ _ => 12
  | ESslDelete _ _ _ => 13
  | EObserveSslCertificateCreationLatency _ => 14
  | EClientUpdate _ _ _ => 15
  end.

(** ** Two sentences of the specification, as they are written *)

(** Whenever the fetched resource differs from the desired one, the pass
    deletes the external resource, removes the entry and returns the
    distinguished outcome, with no create and no status update. *)
Definition drift_always_remediated {W : Type} (id : CertId)
    (o : Outcome (option error) W) : Prop :=
  ∀ pre n mcrt c post,
    trace o = pre ++ ESslGet n (Some mcrt) (inl c) :: post →
    certificates_Equal mcrt c = false →
    (∃ r, ESslDelete n (Some mcrt) r ∈ post) ∧
    EStateDelete id ∈ post ∧
    result o = Some errors_ErrSslCertificateOutOfSyncGotDeleted ∧
    Forall (λ ev, is_create ev = false) post ∧
    Forall (λ ev, is_update ev = false) (trace o).

(** After a pass that failed at the remote delete, the next pass finds the
    entry soft deleted and cleans up through the soft-delete branch. *)
Definition resumes_through_soft_delete_branch {W : Type} (id : CertId)
    (o1 o2 : Outcome (option error) W) : Prop :=
  ∀ pre n m e,
    trace o1 = pre ++ [ESslDelete n m (Some e)] →
    EIsSoftDeleted id (inl true) ∈ trace o2.

End Embedding.

(** ** A concrete instance, for running the pass

    The data model of the spec with a fake External Resource Manager: the
    instance at which the theorems below are applied to concrete passes. *)
Module Fake.

Inductive err : Type :=
  | NotTracked          (* errors.ErrManagedCertificateNotFound *)
  | OutOfSync           (* errors.ErrSslCertificateOutOfSyncGotDeleted *)
  | NotFound            (* a remote "resource not found" *)
  | Backend (msg : string).

#[global] Instance err_eq_dec : EqDecision err.
Proof. solve_decision. Defined.

(** The desired resource: domains to secure, creation time, status. *)
Record mcrt : Type := mkMcrt {
  mcrt_namespace : string;
  mcrt_domains : list string;
  mcrt_created : Z;
  mcrt_status : string
}.

(** The external resource: domains and provisioning status. *)
Record sslcert : Type := mkSslcert {
  ssl_domains : list string;
  ssl_status : string
}.

Definition packages : Packages := {|
  error := err;
  errors_ErrManagedCertificateNotFound := NotTracked;
  errors_ErrSslCertificateOutOfSyncGotDeleted := OutOfSync;
  http_IsNotFound := λ e, match e with NotFound => true | _ => false end;
  apis_ManagedCertificate := mcrt;
  compute_SslCertificate := sslcert;
  time_Time := Z;
  mcrt_Namespace := mcrt_namespace;
  mcrt_CreationTime := λ m, inl (mcrt_created m);
  certificates_Equal := λ m c, bool_decide (mcrt_domains m = ssl_domains c);
  certificates_CopyStatus := λ c m,
    (mkMcrt (mcrt_namespace m) (mcrt_domains m) (mcrt_created m) (ssl_status c),
     None)
|}.

(** The world outside the State Store: the desired resource of the one
    identity at hand as each coming pass will find it (the last one stays;
    [None] is an absent resource), the remote certificates by name, the names
    the generator will hand out, an error the next remote delete is made to
    fail with, the latencies observed and the resources written back. *)
Record Cloud : Type := mkCloud {
  desired : list (option mcrt);
  certs : gmap string sslcert;
  names : list string;
  delete_error : option err;
  observed : list Z;
  updated : list mcrt
}.

Definition cloud : @Handler packages Cloud :=
  λ X c w,
    match c in Call X return X * Cloud with
    | Lister_Get _ _ =>
        (match desired w with Some m :: _ => inl m | _ => inr NotFound end,
         mkCloud (match desired w with _ :: (_ :: _) as ds => ds | ds => ds end)
           (certs w) (names w) (delete_error w) (observed w) (updated w))
    | Random_Name =>
        match names w with
        | n :: ns =>
            (inl n, mkCloud (desired w) (certs w) ns (delete_error w)
                      (observed w) (updated w))
        | [] => (inr (Backend "no name"), w)
        end
    | Ssl_Exists n _ => (inl (bool_decide (is_Some (certs w !! n))), w)
    | Ssl_Create n m =>
        (None,
         mkCloud (desired w)
           (<[n := mkSslcert (mcrt_domains m) "PROVISIONING"]> (certs w))
           (names w) (delete_error w) (observed w) (updated w))
    | Ssl_Get n _ =>
        (match certs w !! n with Some c => inl c | None => inr NotFound end, w)
    | Ssl_Delete n _ =>
        match delete_error w with
        | Some e =>
            (Some e, mkCloud (desired w) (certs w) (names w) None (observed w)
                       (updated w))
        | None =>
            (match certs w !! n with Some _ => None | None => Some NotFound end,
             mkCloud (desired w) (delete n (certs w)) (names w) None
               (observed w) (updated w))
        end
    | Metrics_ObserveSslCertificateCreationLatency t =>
        (tt, mkCloud (desired w) (certs w) (names w) (delete_error w)
               (t :: observed w) (updated w))
    | Client_Update _ m =>
        (None, mkCloud (desired w) (certs w) (names w) (delete_error w)
                 (observed w) (m :: updated w))
    (* the State calls are answered by [withState]; here: nothing is tracked *)
    | State_GetSslCertificateName _ => (inr NotTracked, w)
    | State_SetSslCertificateName _ _ => (tt, w)
    | State_IsExcludedFromSLO _ => (inr NotTracked, w)
    | State_IsSslCertificateCreationReported _ => (inr NotTracked, w)
    | State_SetSslCertificateCreationReported _ => (Some NotTracked, w)
    | State_SetSoftDeleted _ => (Some NotTracked, w)
    | State_IsSoftDeleted _ => (inr NotTracked, w)
    | State_Delete _ => (tt, w)
    end.

(** The identity, the desired resources and the worlds of the scenario of
    the spec. *)
Definition id1 : CertId := mkCertId "default" "mcrt1".
Definition mcrt1 : mcrt := mkMcrt "default" ["example.com"] 1000 "".
Definition mcrt2 : mcrt := mkMcrt "default" ["example.org"] 1000 "".
Definition entry1 : StateEntry := mkStateEntry "mcert-abc123" false false false.
Definition cert1 : sslcert := mkSslcert ["example.com"] "ACTIVE".

(** Nothing tracked, nothing created yet. *)
Definition fresh (ds : list (option mcrt)) : gmap CertId StateEntry * Cloud :=
  (∅, mkCloud ds ∅ ["mcert-abc123"; "mcert-xyz789"] None [] []).

(** The identity tracked under its first name, the certificate for
    example.com in place; [ds] are the desired resources to come and [f] is
    the error the next remote delete fails with. *)
Definition tracked (ds : list (option mcrt)) (f : option err)
    : gmap CertId StateEntry * Cloud :=
  ({[id1 := entry1]},
   mkCloud ds {["mcert-abc123" := cert1]} ["mcert-xyz789"] f [] []).

(** The identity tracked, its desired resource and its certificate gone. *)
Definition orphaned : gmap CertId StateEntry * Cloud :=
  ({[id1 := entry1]}, mkCloud [] ∅ [] None [] []).

(** The collaborators of the scenario. *)
Definition sync : @Handler packages (gmap CertId StateEntry * Cloud) :=
  @withState packages Cloud cloud.

End Fake.

(** ** More worlds for the scenario *)
Module Worlds.
Import Fake.

Definition id2 : CertId := mkCertId "default" "mcrt2".

(** The first identity tracked with the given flags, a second one tracked
    beside it, no certificate created yet. *)
Definition flagged (softDeleted excludedFromSLO : bool)
    : gmap CertId StateEntry * Cloud :=
  ({[id1 := mkStateEntry "mcert-abc123" softDeleted excludedFromSLO false;
     id2 := mkStateEntry "mcert-other" false false false]},
   mkCloud [Some mcrt1] ∅ [] None [] []).

(** Nothing tracked and no name left to hand out. *)
Definition nameless : gmap CertId StateEntry * Cloud :=
  (∅, mkCloud [Some mcrt1] ∅ [] None [] []).

(** The instance of [Fake] with a creation time that cannot be read and a
    status that cannot be copied. *)
Definition broken : Packages := {|
  error := err;
  errors_ErrManagedCertificateNotFound := NotTracked;
  errors_ErrSslCertificateOutOfSyncGotDeleted := OutOfSync;
  http_IsNotFound := λ e, match e with NotFound => true | _ => false end;
  apis_ManagedCertificate := mcrt;
  compute_SslCertificate := sslcert;
  time_Time := Z;
  mcrt_Namespace := mcrt_namespace;
  mcrt_CreationTime := λ m, inr (Backend "time");
  certificates_Equal := λ m c, bool_decide (mcrt_domains m = ssl_domains c);
  certificates_CopyStatus := λ c m, (m, Some (Backend "status"))
|}.

(** Collaborators without a memory: the lister is down or serves [mcrt1],
    the certificate exists or not as the world says, the identity is tracked
    with all flags down, and every write succeeds. *)
Record Mood : Type := mkMood { lister_down : bool; cert_exists : bool }.

Definition calm : @Handler broken Mood :=
  λ X c w,
    match c in Call X return X * Mood with
    | Lister_Get _ _ =>
        (if lister_down w then inr (Backend "lister") else inl mcrt1, w)
    | State_GetSslCertificateName _ => (inl "mcert-abc123", w)
    | State_SetSslCertificateName _ _ => (tt, w)
    | State_IsExcludedFromSLO _ => (inl false, w)
    | State_IsSslCertificateCreationReported _ => (inl false, w)
    | State_SetSslCertificateCreationReported _ => (None, w)
    | State_SetSoftDeleted _ => (None, w)
    | State_IsSoftDeleted _ => (inl false, w)
    | State_Delete _ => (tt, w)
    | Random_Name => (inl "mcert-xyz789", w)
    | Ssl_Exists _ _ => (inl (cert_exists w), w)
    | Ssl_Create _ _ => (None, w)
    | Ssl_Get _ _ => (inl cert1, w)
    | Ssl_Delete _ _ => (None, w)
    | Metrics_ObserveSslCertificateCreationLatency _ => (tt, w)
    | Client_Update _ _ => (None, w)
    end.

(** The collaborators of the scenario with a State Store whose name lookup
    is out of order: whatever is tracked, GetSslCertificateName fails with a
    backend error, which is not the NotTracked signal; every other call is
    served as in the scenario. *)
Definition outage : @Handler packages (gmap CertId StateEntry * Cloud) :=
  λ X c w,
    match c in Call X return X * (gmap CertId StateEntry * Cloud) with
    | State_GetSslCertificateName _ => (inr (Backend "state store down"), w)
    | c' => sync _ c' w
    end.

End Worlds.



(** * Properties of one pass *)

Section ListFacts.
Context {A : Type}.

Lemma nil_eq_app_cons (pre : list A) (y : A) (post : list A) :
  [] = pre ++ y :: post → False.
Proof. by destruct pre. Qed.

Lemma cons_eq_app_cons (x : A) (l pre : list A) (y : A) (post : list A) :
  x :: l = pre ++ y :: post →
  (pre = [] ∧ x = y ∧ l = post) ∨ (∃ pre', pre = x :: pre' ∧ l = pre' ++ y :: post).
Proof.
  destruct pre as [|x' pre']; simpl; intros Heq; simplify_eq; eauto.
Qed.

Lemma app_eq_app_cons (l1 l2 pre : list A) (y : A) (post : list A) :
  l1 ++ l2 = pre ++ y :: post →
  (∃ q, l1 = pre ++ y :: q ∧ post = q ++ l2) ∨
  (∃ p, pre = l1 ++ p ∧ l2 = p ++ y :: post).
Proof.
  revert pre. induction l1 as [|a l1 IH]; intros pre Heq.
  - right. by exists pre.
  - destruct pre as [|b pre]; simplify_eq/=.
    + left. by exists l1.
    + destruct (IH _ H0) as [(q & -> & ->) | (p & -> & ->)]; [left | right]; eauto.
Qed.

Lemma last_app_cons_elem (pre : list A) (y : A) (post : list A) (z : A) :
  last (pre ++ y :: post) = Some z → z ≠ y → z ∈ post.
Proof.
  rewrite last_app_cons. intros Hlast Hne.
  destruct post as [|p post].
  - cbn in Hlast. congruence.
  - rewrite last_cons_cons in Hlast. by apply last_Some_elem_of.
Qed.

End ListFacts.

(** Every way of cutting a trace that is written out as [pre ++ ev :: post]:
    one goal for each position whose event can be [ev]. *)
Ltac cut_trace Hcut :=
  first
    [ apply nil_eq_app_cons in Hcut; destruct Hcut
    | apply cons_eq_app_cons in Hcut;
      destruct Hcut as [(-> & ? & ?) | (? & -> & Hcut)];
      [ simplify_eq | cut_trace Hcut ] ].

(** Membership in a trace that is written out. *)
Ltac occurs :=
  solve [ apply list_elem_of_here | apply list_elem_of_further; occurs ].

(** An event known to occur in a trace that is written out: one goal for
    each position it can stand at. *)
Ltac occurs_in Hin :=
  repeat (apply elem_of_cons in Hin as [Hin | Hin]; [simplify_eq |]);
  try (apply elem_of_nil in Hin; destruct Hin).

(** A trace that is written out ends with the given events. *)
Ltac ends :=
  solve [ reflexivity | apply suffix_cons_r; ends ].

(** A property of every event of a trace that is written out. *)
Ltac all_events :=
  cbn; repeat first [ apply Forall_nil_2 | apply Forall_cons_2; [done |] ].

Section Pass.
Context `{Packages} {W : Type} (h : Handler W).

(** The answers of the collaborators, one call after the other, and the
    branches the pass takes on them. *)
Ltac answer :=
  match goal with
  | |- context [h ?X ?c ?w] =>
      is_var w;
      let r := fresh "r" in
      let w' := fresh "w" in
      let E := fresh "E" in
      destruct (h X c w) as [r w'] eqn:E; cbn [fst snd] in *
  end.

Ltac branch :=
  match goal with
  | |- context [match ?x with _ => _ end] => is_var x; destruct x
  | |- context [negb ?x] => is_var x; destruct x
  | |- context [if http_IsNotFound ?e then _ else _] =>
      let N := fresh "N" in destruct (http_IsNotFound e) eqn:N
  | |- context [decide (?a = ?b)] => destruct (decide (a = b))
  | |- context [mcrt_CreationTime ?m] =>
      let T := fresh "T" in destruct (mcrt_CreationTime m) eqn:T
  | |- context [certificates_Equal ?m ?c] =>
      let Q := fresh "Q" in destruct (certificates_Equal m c) eqn:Q
  | |- context [certificates_CopyStatus ?c ?m] =>
      let C := fresh "C" in
      destruct (certificates_CopyStatus c m) as [? [?|]] eqn:C
  end.

Ltac explore := repeat (cbn; first [answer | branch]).

Ltac forget_answers :=
  repeat match goal with E : h _ _ _ = _ |- _ => clear E end.

Ltac paths :=
  unfold ManagedCertificate, ensureSslCertificate, deleteSslCertificate,
    observeSslCertificateCreationLatencyIfNeeded, ensureSslCertificateName,
    http_IgnoreNotFound;
  explore; forget_answers; cbn.

(** *** How a run composes *)

Lemma run_bind {A B : Type} (p : Prog A) (f : A → Prog B) (w : W) :
  run h (p ≫= f) w =
    mkOutcome (result (run h (f (result (run h p w))) (world (run h p w))))
              (world (run h (f (result (run h p w))) (world (run h p w))))
              (trace (run h p w) ++
               trace (run h (f (result (run h p w))) (world (run h p w)))).
Proof.
  unfold mbind, Prog_bind. revert w.
  induction p as [a | X c k IH]; intros w; cbn.
  - by destruct (run h (f a) w).
  - by rewrite IH.
Qed.

Lemma trace_passes_cons (id : CertId) (ids : list CertId) (w : W) :
  trace (passes h (id :: ids) w) =
    trace (run h (ManagedCertificate id) w) ++
    trace (passes h ids (world (run h (ManagedCertificate id) w))).
Proof. reflexivity. Qed.

(** *** Where calls stand in a pass *)

(** The entry is marked soft deleted right before the remote delete. *)
Lemma marked_soft_deleted_before_delete (id : CertId) (w : W)
    (pre : list Event) (n : string) (m : option apis_ManagedCertificate)
    (r : option error) (post : list Event) :
  trace (run h (ManagedCertificate id) w) = pre ++ ESslDelete n m r :: post →
  last pre = Some (ESetSoftDeleted id None).
Proof.
  paths; intros Hcut; cut_trace Hcut; reflexivity.
Qed.

(** The latency is observed right after both flags were read as unset, the
    reported flag is set right after it, and nothing else is observed in
    the pass. *)
Lemma latency_observed_once_when_due (id : CertId) (w : W)
    (pre : list Event) (t : time_Time) (post : list Event) :
  trace (run h (ManagedCertificate id) w) =
    pre ++ EObserveSslCertificateCreationLatency t :: post →
  [EIsExcludedFromSLO id (inl false);
   EIsSslCertificateCreationReported id (inl false)] `suffix_of` pre ∧
  (∃ r, head post = Some (ESetSslCertificateCreationReported id r)) ∧
  Forall (λ ev, is_observe ev = false) (pre ++ post).
Proof.
  paths; intros Hcut; cut_trace Hcut.
  all: split_and!; [ends | by eexists | all_events].
Qed.

(** An error of the name lookup is not returned while a name is ensured:
    whatever the error, a name is generated and stored. *)
Remark lookup_error_is_taken_for_untracked (id : CertId) (w : W)
    (e : error) (n : string) :
  (h _ (State_GetSslCertificateName id) w).1 = inr e →
  (h _ Random_Name (h _ (State_GetSslCertificateName id) w).2).1 = inl n →
  result (run h (ensureSslCertificateName id) w) = inl n ∧
  trace (run h (ensureSslCertificateName id) w) =
    [EGetSslCertificateName id (inr e); ERandomName (inl n);
     ESetSslCertificateName id n].
Proof.
  intros Hget Hname. unfold ensureSslCertificateName. cbn.
  rewrite Hget. cbn. rewrite Hname. by cbn.
Qed.

(** So a pass that finds the desired resource and then fails to look the
    name up does not end there: its next call asks for a fresh name, and
    the call after that stores the name when there is one. *)
Remark lookup_error_does_not_end_the_pass (id : CertId) (w : W)
    (m : apis_ManagedCertificate) (e : error) (post : list Event) :
  trace (run h (ManagedCertificate id) w) =
    EListerGet (Namespace id) (Name id) (inl m)
      :: EGetSslCertificateName id (inr e) :: post →
  ∃ r post',
    post = ERandomName r :: post' ∧
    ∀ n, r = inl n → head post' = Some (ESetSslCertificateName id n).
Proof.
  paths; intros Hcut; simplify_eq; do 2 eexists; (split; [reflexivity |]);
    intros n' Hn'; by simplify_eq.
Qed.

(** *** The claims about one pass *)

(** C2.  Before any create call is issued, the name it is issued for was
    read from the State Store or written to it in the same pass. *)
Theorem name_recorded_before_create (id : CertId) (w : W)
    (pre : list Event) (n : string) (m : apis_ManagedCertificate)
    (r : option error) (post : list Event) :
  trace (run h (ManagedCertificate id) w) = pre ++ ESslCreate n m r :: post →
  EGetSslCertificateName id (inl n) ∈ pre ∨ ESetSslCertificateName id n ∈ pre.
Proof.
  paths; intros Hcut; cut_trace Hcut; solve [left; occurs | right; occurs].
Qed.

(** C3, as amended.  When the fetched resource differs from the desired
    one, the pass updates no status and creates nothing; it marks the entry
    soft deleted and deletes the external resource, and when neither fails
    ("not found" counting as deleted) it removes the entry and returns
    ErrSslCertificateOutOfSyncGotDeleted; when one fails, the pass ends
    there with that error and the entry stays. *)
Theorem drift_is_remediated_unless_deletion_fails (id : CertId) (w : W)
    (pre : list Event) (n : string) (mcrt : apis_ManagedCertificate)
    (c : compute_SslCertificate) (post : list Event) :
  trace (run h (ManagedCertificate id) w) =
    pre ++ ESslGet n (Some mcrt) (inl c) :: post →
  certificates_Equal mcrt c = false →
  Forall (λ ev, is_update ev = false) (trace (run h (ManagedCertificate id) w)) ∧
  Forall (λ ev, is_create ev = false) post ∧
  ((∃ e, post = [ESetSoftDeleted id (Some e)] ∧
         result (run h (ManagedCertificate id) w) = Some e)
   ∨ (∃ e, post = [ESetSoftDeleted id None; ESslDelete n (Some mcrt) (Some e)] ∧
           http_IsNotFound e = false ∧
           result (run h (ManagedCertificate id) w) = Some e)
   ∨ (∃ r, post = [ESetSoftDeleted id None; ESslDelete n (Some mcrt) r;
                   EStateDelete id] ∧
           (r = None ∨ (∃ e, r = Some e ∧ http_IsNotFound e = true)) ∧
           result (run h (ManagedCertificate id) w) =
             Some errors_ErrSslCertificateOutOfSyncGotDeleted)).
Proof.
  paths; intros Hcut Hneq; cut_trace Hcut; try congruence.
  all: split_and!; [all_events.. |].
  all: first
    [ left; eexists; split; reflexivity
    | right; left; eexists; split_and!; [reflexivity | eassumption | reflexivity]
    | right; right; eexists; split_and!; [reflexivity | eauto | reflexivity] ].
Qed.

(** C4.  When the desired resource is absent and the name lookup answers
    with the NotTracked signal, the pass returns success after these two
    reads: no call to the External Resource Manager, no write to the State
    Store. *)
Theorem absent_and_untracked_is_a_noop (id : CertId) (w : W) (e : error) :
  EListerGet (Namespace id) (Name id) (inr e) ∈ trace (run h (ManagedCertificate id) w) →
  http_IsNotFound e = true →
  EGetSslCertificateName id (inr errors_ErrManagedCertificateNotFound)
    ∈ trace (run h (ManagedCertificate id) w) →
  result (run h (ManagedCertificate id) w) = None ∧
  trace (run h (ManagedCertificate id) w) =
    [EListerGet (Namespace id) (Name id) (inr e);
     EGetSslCertificateName id (inr errors_ErrManagedCertificateNotFound)] ∧
  Forall (λ ev, ssl_call ev = false ∧ state_write ev = false)
    (trace (run h (ManagedCertificate id) w)).
Proof.
  paths; intros Hl Hnf Hg; occurs_in Hl; occurs_in Hg; try congruence.
  split_and!; [done.. | all_events].
Qed.

(** C5.  While the State Store records the name [n] for the identity
    ([Tracked]: the lookup answers [n] and keeps doing so), every one of
    [k] calls in a row returns [n], and each call is that one lookup:
    no name is generated, none is stored. *)
Theorem ensureSslCertificateName_is_idempotent (Tracked : W → Prop)
    (id : CertId) (n : string) (k : nat) (w : W) :
  (∀ w', Tracked w' →
     (h _ (State_GetSslCertificateName id) w').1 = inl n ∧
     Tracked (h _ (State_GetSslCertificateName id) w').2) →
  Tracked w →
  result (run h (repeatedly k (ensureSslCertificateName id)) w) =
    replicate k (inl n) ∧
  trace (run h (repeatedly k (ensureSslCertificateName id)) w) =
    replicate k (EGetSslCertificateName id (inl n)) ∧
  Tracked (world (run h (repeatedly k (ensureSslCertificateName id)) w)).
Proof.
  intros Hlife. revert w. induction k as [|k IH]; intros w Hw; [done |].
  destruct (Hlife w Hw) as [Hget Hnext].
  assert (Hone : run h (ensureSslCertificateName id) w =
            mkOutcome (inl n) (h _ (State_GetSslCertificateName id) w).2
              [EGetSslCertificateName id (inl n)]).
  { unfold ensureSslCertificateName. cbn. rewrite Hget. reflexivity. }
  destruct (IH _ Hnext) as (Hres & Htr & Hlast).
  cbn [repeatedly]. rewrite !run_bind, Hone. cbn [result world trace].
  rewrite Hres, Htr. cbn. by rewrite app_nil_r.
Qed.

(** C6.  A create call comes right after an exists check that answered
    false, and it is the only create call of the pass. *)
Theorem create_only_after_exists_false (id : CertId) (w : W)
    (pre : list Event) (n : string) (m : apis_ManagedCertificate)
    (r : option error) (post : list Event) :
  trace (run h (ManagedCertificate id) w) = pre ++ ESslCreate n m r :: post →
  last pre = Some (ESslExists n (Some m) (inl false)) ∧
  Forall (λ ev, is_create ev = false) (pre ++ post).
Proof.
  paths; intros Hcut; cut_trace Hcut; (split; [reflexivity | all_events]).
Qed.

(** C8.  When the remote delete answers nil or "not found", the pass goes
    on the same way: it removes the entry and returns what its path
    returns, success when the desired resource is absent or soft deleted,
    ErrSslCertificateOutOfSyncGotDeleted after a drift. *)
Theorem not_found_on_delete_counts_as_deleted (id : CertId) (w : W)
    (pre : list Event) (n : string) (m : option apis_ManagedCertificate)
    (r : option error) (post : list Event) :
  trace (run h (ManagedCertificate id) w) = pre ++ ESslDelete n m r :: post →
  r = None ∨ (∃ e, r = Some e ∧ http_IsNotFound e = true) →
  post = [EStateDelete id] ∧
  ((m = None ∧
    (∃ e0, pre = [EListerGet (Namespace id) (Name id) (inr e0);
                  EGetSslCertificateName id (inl n); ESetSoftDeleted id None]) ∧
    result (run h (ManagedCertificate id) w) = None)
   ∨ (is_Some m ∧
      [EIsSoftDeleted id (inl true); ESetSoftDeleted id None] `suffix_of` pre ∧
      result (run h (ManagedCertificate id) w) = None)
   ∨ (∃ mcrt c, m = Some mcrt ∧ certificates_Equal mcrt c = false ∧
        [ESslGet n (Some mcrt) (inl c); ESetSoftDeleted id None] `suffix_of` pre ∧
        result (run h (ManagedCertificate id) w) =
          Some errors_ErrSslCertificateOutOfSyncGotDeleted)).
Proof.
  paths; intros Hcut Hr; cut_trace Hcut;
    (destruct Hr as [? | (? & ? & ?)]; simplify_eq; try congruence);
    (split; [reflexivity |]).
  all: first
    [ left; split_and!; [reflexivity | by eexists | reflexivity]
    | right; left; split_and!; [by eexists | ends | reflexivity]
    | right; right; do 2 eexists;
      split_and!; [reflexivity | eassumption | ends | reflexivity] ].
Qed.

(** C9.  The entry is removed only as the last call of a pass, for the
    identity of the pass, right after a remote delete, of the name the
    State Store has for the identity, that answered nil or "not found". *)
Theorem entry_removed_only_after_remote_delete (id : CertId) (w : W)
    (pre : list Event) (id' : CertId) (post : list Event) :
  trace (run h (ManagedCertificate id) w) = pre ++ EStateDelete id' :: post →
  id' = id ∧ post = [] ∧
  ∃ n m r,
    last pre = Some (ESslDelete n m r) ∧
    (r = None ∨ (∃ e, r = Some e ∧ http_IsNotFound e = true)) ∧
    (EGetSslCertificateName id (inl n) ∈ pre ∨ ESetSslCertificateName id n ∈ pre).
Proof.
  paths; intros Hcut; cut_trace Hcut.
  all: split_and!; [reflexivity.. |]; do 3 eexists;
    (split_and!; [reflexivity | eauto | solve [left; occurs | right; occurs]]).
Qed.

(** *** More about one pass *)

(** X1.  When the lister fails with an error that is not "not found", the
    pass returns that error and calls nothing else. *)
Theorem lister_error_is_returned (id : CertId) (w : W) (e : error)
    (post : list Event) :
  trace (run h (ManagedCertificate id) w) =
    EListerGet (Namespace id) (Name id) (inr e) :: post →
  http_IsNotFound e = false →
  post = [] ∧ result (run h (ManagedCertificate id) w) = Some e.
Proof.
  paths; intros Hcut Hnf; simplify_eq; first [congruence | done].
Qed.

(** X2.  A pass starts by reading the desired resource of its identity from
    the lister, reads it only once, and every State Store call it makes is
    about that identity. *)
Theorem pass_starts_at_the_lister_and_keeps_to_its_identity
    (id : CertId) (w : W) :
  (∃ r post,
     trace (run h (ManagedCertificate id) w) =
       EListerGet (Namespace id) (Name id) r :: post ∧
     Forall (λ ev, is_lister ev = false) post) ∧
  Forall (λ ev, state_id ev = None ∨ state_id ev = Some id)
    (trace (run h (ManagedCertificate id) w)).
Proof.
  paths.
  all: split; [do 2 eexists; split; [reflexivity | all_events] |].
  all: cbn; repeat first [ apply Forall_nil_2 | apply Forall_cons_2; [by (left + right) |] ].
Qed.

(** X3.  No interface method is called twice in one pass. *)
Theorem no_method_called_twice (id : CertId) (w : W) :
  NoDup (method <$> trace (run h (ManagedCertificate id) w)).
Proof.
  paths; apply (bool_decide_unpack _); reflexivity.
Qed.

(** X4.  Every call to the External Resource Manager, exists, create, get or
    delete, is for a name read from or written to the State Store earlier in
    the pass. *)
Theorem remote_calls_use_the_recorded_name (id : CertId) (w : W)
    (pre : list Event) (ev : Event) (post : list Event) (n : string) :
  trace (run h (ManagedCertificate id) w) = pre ++ ev :: post →
  ssl_name ev = Some n →
  EGetSslCertificateName id (inl n) ∈ pre ∨ ESetSslCertificateName id n ∈ pre.
Proof.
  paths; intros Hcut Hn; cut_trace Hcut; cbn in Hn; simplify_eq;
    solve [left; occurs | right; occurs].
Qed.

(** X5.  When the entry is read as soft deleted, the pass goes straight to
    marking and deleting: the only remote call it can make is the delete,
    and it neither observes a latency nor writes a status back. *)
Theorem soft_deleted_resource_is_only_deleted (id : CertId) (w : W)
    (pre post : list Event) :
  trace (run h (ManagedCertificate id) w) =
    pre ++ EIsSoftDeleted id (inl true) :: post →
  (∃ r, head post = Some (ESetSoftDeleted id r)) ∧
  Forall (λ ev, ssl_call ev = is_delete ev ∧ is_update ev = false ∧
                is_observe ev = false)
    (trace (run h (ManagedCertificate id) w)).
Proof.
  paths; intros Hcut; cut_trace Hcut.
  all: split; [by eexists | all_events].
Qed.

(** X6.  A status update is the last call of a pass and its answer is what
    the pass returns; it comes right after the fetch of a certificate equal
    to the listed resource, writes what CopyStatus made of the two, in the
    namespace of that resource, and no remote delete precedes it. *)
Theorem status_is_written_back_only_when_in_sync (id : CertId) (w : W)
    (pre : list Event) (ns : string) (m : apis_ManagedCertificate)
    (r : option error) (post : list Event) :
  trace (run h (ManagedCertificate id) w) = pre ++ EClientUpdate ns m r :: post →
  post = [] ∧
  result (run h (ManagedCertificate id) w) = r ∧
  ns = mcrt_Namespace m ∧
  (∃ n mcrt c,
     EListerGet (Namespace id) (Name id) (inl mcrt) ∈ pre ∧
     last pre = Some (ESslGet n (Some mcrt) (inl c)) ∧
     certificates_Equal mcrt c = true ∧
     certificates_CopyStatus c mcrt = (m, None)) ∧
  Forall (λ ev, is_delete ev = false) pre.
Proof.
  paths; intros Hcut; cut_trace Hcut.
  all: split_and!; [reflexivity.. | | all_events].
  all: do 3 eexists; split_and!; [occurs | reflexivity | eassumption..].
Qed.

(** X7.  When the fetched certificate is equal to the resource and CopyStatus
    fails, the pass ends at the fetch, without an update, and returns the
    error of CopyStatus. *)
Theorem failed_status_copy_is_returned (id : CertId) (w : W)
    (pre : list Event) (n : string) (mcrt : apis_ManagedCertificate)
    (c : compute_SslCertificate) (post : list Event)
    (m : apis_ManagedCertificate) (e : error) :
  trace (run h (ManagedCertificate id) w) =
    pre ++ ESslGet n (Some mcrt) (inl c) :: post →
  certificates_Equal mcrt c = true →
  certificates_CopyStatus c mcrt = (m, Some e) →
  post = [] ∧ result (run h (ManagedCertificate id) w) = Some e.
Proof.
  paths; intros Hcut Heq Hcopy; cut_trace Hcut;
    first [congruence | by simplify_eq | split; congruence].
Qed.

(** X8.  When no name can be generated the pass returns the generator's error
    at once: it has written nothing to the State Store and called the
    External Resource Manager not at all. *)
Theorem failed_name_generation_writes_nothing (id : CertId) (w : W)
    (pre : list Event) (e : error) (post : list Event) :
  trace (run h (ManagedCertificate id) w) = pre ++ ERandomName (inr e) :: post →
  post = [] ∧
  result (run h (ManagedCertificate id) w) = Some e ∧
  Forall (λ ev, state_write ev = false ∧ ssl_call ev = false)
    (trace (run h (ManagedCertificate id) w)).
Proof.
  paths; intros Hcut; cut_trace Hcut.
  all: split_and!; [reflexivity.. | all_events].
Qed.

(** X9.  A latency is observed only after a create that succeeded in this
    pass, and for the creation time of the listed resource. *)
Theorem latency_is_observed_for_the_listed_resource (id : CertId) (w : W)
    (pre : list Event) (t : time_Time) (post : list Event) :
  trace (run h (ManagedCertificate id) w) =
    pre ++ EObserveSslCertificateCreationLatency t :: post →
  ∃ n mcrt,
    EListerGet (Namespace id) (Name id) (inl mcrt) ∈ pre ∧
    ESslCreate n mcrt None ∈ pre ∧
    mcrt_CreationTime mcrt = inl t.
Proof.
  paths; intros Hcut; cut_trace Hcut.
  all: do 2 eexists; split_and!; [occurs | occurs | eassumption].
Qed.

(** X10.  A pass whose last call is the read of the reported flag, answering
    false, has created the certificate and failed to read the creation time
    of the resource: it returns that error, and nowhere in the pass is a
    latency observed or the reported flag set. *)
Theorem unreadable_creation_time_aborts_after_create (id : CertId) (w : W)
    (pre : list Event) :
  trace (run h (ManagedCertificate id) w) =
    pre ++ [EIsSslCertificateCreationReported id (inl false)] →
  (∃ n mcrt e,
     ESslCreate n mcrt None ∈ pre ∧
     mcrt_CreationTime mcrt = inr e ∧
     result (run h (ManagedCertificate id) w) = Some e) ∧
  Forall (λ ev, is_observe ev = false ∧ is_report ev = false)
    (trace (run h (ManagedCertificate id) w)).
Proof.
  paths; intros Hcut; cut_trace Hcut.
  all: split; [| all_events].
  all: do 3 eexists; split_and!; [occurs | eassumption | reflexivity].
Qed.

(** X11.  When the identity is read as excluded from the SLO, or its latency
    as already reported, the pass observes nothing, sets no flag, and goes on
    with the fetch of the certificate. *)
Theorem skipping_the_metric_does_not_stop_the_pass (id : CertId) (w : W)
    (pre : list Event) (ev : Event) (post : list Event) :
  trace (run h (ManagedCertificate id) w) = pre ++ ev :: post →
  ev = EIsExcludedFromSLO id (inl true) ∨
  ev = EIsSslCertificateCreationReported id (inl true) →
  (∃ n mcrt r, head post = Some (ESslGet n (Some mcrt) r)) ∧
  Forall (λ ev, is_observe ev = false ∧ is_report ev = false)
    (trace (run h (ManagedCertificate id) w)).
Proof.
  paths; intros Hcut Hev; cut_trace Hcut; destruct Hev; simplify_eq.
  all: split; [by do 3 eexists | all_events].
Qed.

(** X12.  A pass returns nil in three ways only: the resource is absent and
    untracked (two reads), or its last call removed the entry (and then its
    only remote call was the delete), or its last call is a status update
    that answered nil. *)
Theorem success_is_a_noop_a_removal_or_an_update (id : CertId) (w : W) :
  result (run h (ManagedCertificate id) w) = None →
  (∃ e0, trace (run h (ManagedCertificate id) w) =
           [EListerGet (Namespace id) (Name id) (inr e0);
            EGetSslCertificateName id (inr errors_ErrManagedCertificateNotFound)])
  ∨ (last (trace (run h (ManagedCertificate id) w)) = Some (EStateDelete id) ∧
     Forall (λ ev, ssl_call ev = is_delete ev)
       (trace (run h (ManagedCertificate id) w)))
  ∨ (∃ ns m, last (trace (run h (ManagedCertificate id) w)) =
               Some (EClientUpdate ns m None)).
Proof.
  paths; intros Hres; try discriminate Hres; subst.
  all: first
    [ left; by eexists
    | right; left; split; [reflexivity | all_events]
    | right; right; by do 2 eexists ].
Qed.

(** X19.  An error that a State Store call other than the name lookup, or
    an External Resource Manager call, comes back with ends the pass at once
    and is returned as it is, unless it is the "not found" of the remote
    delete; and when the desired resource is absent, an error of the name
    lookup other than the NotTracked signal does so too. *)
Theorem collaborator_errors_abort_the_pass (id : CertId) (w : W) :
  (∀ pre ev post e,
     trace (run h (ManagedCertificate id) w) = pre ++ ev :: post →
     collaborator_error ev = Some e →
     name_lookup ev = false →
     not_found_on_delete ev = false →
     post = [] ∧ result (run h (ManagedCertificate id) w) = Some e)
  ∧
  (∀ e0 e post,
     trace (run h (ManagedCertificate id) w) =
       EListerGet (Namespace id) (Name id) (inr e0)
         :: EGetSslCertificateName id (inr e) :: post →
     e ≠ errors_ErrManagedCertificateNotFound →
     post = [] ∧ result (run h (ManagedCertificate id) w) = Some e).
Proof.
  split.
  - paths; intros pre ev post e' Hcut He Hn Hd; cut_trace Hcut;
      cbn in He, Hn, Hd; first [congruence | by simplify_eq].
  - paths; intros e0' e' post Hcut Hne; by simplify_eq.
Qed.

End Pass.

(** * Passes over the in-memory State Store *)

Section Stored.
Context `{Packages} {E : Type} (ext : Handler E).

Ltac answer :=
  match goal with
  | |- context [ext ?X ?c ?x] =>
      is_var x;
      let r := fresh "r" in
      let x' := fresh "x" in
      let Q := fresh "A" in
      destruct (ext X c x) as [r x'] eqn:Q; cbn [fst snd] in *
  end.

Ltac branch :=
  match goal with
  | |- context [match ?x with _ => _ end] => is_var x; destruct x
  | |- context [negb ?x] => is_var x; destruct x
  | |- context [if http_IsNotFound ?e then _ else _] =>
      let N := fresh "N" in destruct (http_IsNotFound e) eqn:N
  | |- context [decide (?a = ?b)] => destruct (decide (a = b))
  | |- context [mcrt_CreationTime ?m] =>
      let T := fresh "T" in destruct (mcrt_CreationTime m) eqn:T
  | |- context [certificates_Equal ?m ?c] =>
      let Q := fresh "Q" in destruct (certificates_Equal m c) eqn:Q
  | |- context [certificates_CopyStatus ?c ?m] =>
      let C := fresh "C" in
      destruct (certificates_CopyStatus c m) as [? [?|]] eqn:C
  end.

Ltac entry :=
  match goal with
  | |- context [?st !! ?id] =>
      is_var st;
      let L := fresh "L" in destruct (st !! id) as [[? ? ? ?]|] eqn:L
  end.

Ltac known :=
  match goal with
  | L : ?st !! ?id = _ |- context [?st !! ?id] => rewrite L
  end.

Ltac explore :=
  repeat first
    [ progress cbn
    | progress unfold flag_of, set_flag, set_name, reported, excluded
    | rewrite lookup_insert_eq
    | rewrite lookup_delete_eq
    | known | entry | answer | branch ].

Ltac forget_answers :=
  repeat match goal with A : ext _ _ _ = _ |- _ => clear A end.

Ltac paths :=
  unfold ManagedCertificate, ensureSslCertificate, deleteSslCertificate,
    observeSslCertificateCreationLatencyIfNeeded, ensureSslCertificateName,
    http_IgnoreNotFound;
  explore; forget_answers.

Lemma reported_no_observe (id : CertId) (st : gmap CertId StateEntry) (x : E) :
  reported st id = true →
  Forall (λ ev, is_observe ev = false)
    (trace (run (withState ext) (ManagedCertificate id) (st, x))).
Proof.
  paths.
  all: intros Hrep; try discriminate Hrep; all_events.
Qed.

Lemma excluded_no_observe (id : CertId) (st : gmap CertId StateEntry) (x : E) :
  excluded st id = true →
  Forall (λ ev, is_observe ev = false)
    (trace (run (withState ext) (ManagedCertificate id) (st, x))).
Proof.
  paths; intros Hrep; try discriminate Hrep; all_events.
Qed.

Lemma reported_stays (id : CertId) (st : gmap CertId StateEntry) (x : E) :
  reported st id = true →
  last (trace (run (withState ext) (ManagedCertificate id) (st, x)))
    ≠ Some (EStateDelete id) →
  reported (world (run (withState ext) (ManagedCertificate id) (st, x))).1 id = true.
Proof.
  paths; intros Hrep Hlast; try discriminate Hrep; try done.
Qed.

Lemma excluded_stays (id : CertId) (st : gmap CertId StateEntry) (x : E) :
  excluded st id = true →
  last (trace (run (withState ext) (ManagedCertificate id) (st, x)))
    ≠ Some (EStateDelete id) →
  excluded (world (run (withState ext) (ManagedCertificate id) (st, x))).1 id = true.
Proof.
  paths; intros Hrep Hlast; try discriminate Hrep; try done.
Qed.

Lemma observed_then_reported (id : CertId) (st : gmap CertId StateEntry) (x : E)
    (pre : list Event) (t : time_Time) (post : list Event) :
  trace (run (withState ext) (ManagedCertificate id) (st, x)) =
    pre ++ EObserveSslCertificateCreationLatency t :: post →
  head post = Some (ESetSslCertificateCreationReported id None) ∧
  (last (trace (run (withState ext) (ManagedCertificate id) (st, x)))
     ≠ Some (EStateDelete id) →
   reported (world (run (withState ext) (ManagedCertificate id) (st, x))).1 id = true).
Proof.
  paths; intros Hcut; cut_trace Hcut; (split; [reflexivity | try done]).
Qed.


Lemma removed_or_not (id : CertId) (t : list Event) :
  {last t = Some (EStateDelete id)} + {last t ≠ Some (EStateDelete id)}.
Proof.
  destruct (last t) as [[]|]; try (right; congruence).
  match goal with id' : CertId |- _ => destruct (decide (id' = id)) as [->|] end;
    [by left | right; congruence].
Qed.

(** While a flag that keeps the latency from being observed is set,
    whatever is observed later comes after the entry was removed. *)
Lemma flag_blocks_observe (flag : gmap CertId StateEntry → CertId → bool)
    (id : CertId) :
  (∀ st x, flag st id = true →
     Forall (λ ev, is_observe ev = false)
       (trace (run (withState ext) (ManagedCertificate id) (st, x)))) →
  (∀ st x, flag st id = true →
     last (trace (run (withState ext) (ManagedCertificate id) (st, x)))
       ≠ Some (EStateDelete id) →
     flag (world (run (withState ext) (ManagedCertificate id) (st, x))).1 id = true) →
  ∀ k st x t1 b t3,
    flag st id = true →
    trace (passes (withState ext) (replicate k id) (st, x)) =
      t1 ++ EObserveSslCertificateCreationLatency b :: t3 →
    EStateDelete id ∈ t1.
Proof.
  intros Hblocks Hstays k. induction k as [|k IH]; intros st x t1 b t3 Hflag.
  - intros Hnil. by apply nil_eq_app_cons in Hnil.
  - change (replicate (S k) id) with (id :: replicate k id).
    rewrite trace_passes_cons.
    intros Hcut. apply app_eq_app_cons in Hcut as [(q & Hcut & _) | (p & -> & Hcut)].
    + pose proof (Hblocks st x Hflag) as Hno.
      rewrite Hcut in Hno. apply Forall_app in Hno as [_ Hno].
      apply Forall_cons in Hno as [Hno _]. discriminate Hno.
    + apply elem_of_app.
      destruct (removed_or_not id
        (trace (run (withState ext) (ManagedCertificate id) (st, x)))) as [Hdel | Hdel].
      * left. by apply last_Some_elem_of.
      * right. pose proof (Hstays st x Hflag Hdel) as Hflag'.
        destruct (world (run (withState ext) (ManagedCertificate id) (st, x)))
          as [st' x'] eqn:Hw.
        by eapply IH.
Qed.

(** The reported flag is set right after each observation. *)
Lemma reported_right_after_observe (id : CertId) (k : nat)
    (st : gmap CertId StateEntry) (x : E)
    (t1 : list Event) (a : time_Time) (t3 : list Event) :
  trace (passes (withState ext) (replicate k id) (st, x)) =
    t1 ++ EObserveSslCertificateCreationLatency a :: t3 →
  head t3 = Some (ESetSslCertificateCreationReported id None).
Proof.
  revert st x t1. induction k as [|k IH]; intros st x t1.
  - intros Hnil. by apply nil_eq_app_cons in Hnil.
  - change (replicate (S k) id) with (id :: replicate k id).
    rewrite trace_passes_cons.
    intros Hcut. apply app_eq_app_cons in Hcut as [(q & Hcut & ->) | (p & -> & Hcut)].
    + apply observed_then_reported in Hcut as [Hhead _].
      apply head_app_Some. by left.
    + destruct (world (run (withState ext) (ManagedCertificate id) (st, x)))
        as [st' x'] eqn:Hw.
      by eapply IH.
Qed.

(** Between two observations the entry was removed. *)
Lemma observed_once_per_entry (id : CertId) (k : nat)
    (st : gmap CertId StateEntry) (x : E)
    (t1 : list Event) (a : time_Time) (t2 : list Event) (b : time_Time)
    (t3 : list Event) :
  trace (passes (withState ext) (replicate k id) (st, x)) =
    t1 ++ EObserveSslCertificateCreationLatency a
       :: t2 ++ EObserveSslCertificateCreationLatency b :: t3 →
  EStateDelete id ∈ t2.
Proof.
  revert st x t1. induction k as [|k IH]; intros st x t1.
  - intros Hnil. by apply nil_eq_app_cons in Hnil.
  - change (replicate (S k) id) with (id :: replicate k id).
    rewrite trace_passes_cons.
    intros Hcut.
    destruct (world (run (withState ext) (ManagedCertificate id) (st, x)))
      as [st' x'] eqn:Hw.
    apply app_eq_app_cons in Hcut as [(q & Hfst & Hrest) | (p & -> & Hcut)];
      [| by eapply IH].
    symmetry in Hrest.
    apply app_eq_app_cons in Hrest as [(q' & -> & _) | (p & -> & Hrest)].
    + apply (latency_observed_once_when_due (withState ext)) in Hfst
        as (_ & _ & Hno).
      apply Forall_app in Hno as [_ Hno]. apply Forall_app in Hno as [_ Hno].
      apply Forall_cons in Hno as [Hno _]. discriminate Hno.
    + apply elem_of_app.
      destruct (removed_or_not id
        (trace (run (withState ext) (ManagedCertificate id) (st, x)))) as [Hdel | Hdel].
      * left. rewrite Hfst in Hdel.
        apply last_app_cons_elem in Hdel; [done | discriminate].
      * right. pose proof Hfst as Hobs.
        apply observed_then_reported in Hobs as [_ Hrep].
        specialize (Hrep Hdel). rewrite Hw in Hrep.
        eapply (flag_blocks_observe reported); [| | exact Hrep | exact Hrest].
        -- apply reported_no_observe.
        -- apply reported_stays.
Qed.

(** A pass that fails at the remote delete leaves the entry in place, with
    its name, marked soft deleted. *)
Lemma failed_delete_keeps_entry_marked (id : CertId)
    (st : gmap CertId StateEntry) (x : E) (pre : list Event) (n : string)
    (m : option apis_ManagedCertificate) (e : error) :
  trace (run (withState ext) (ManagedCertificate id) (st, x)) =
    pre ++ [ESslDelete n m (Some e)] →
  result (run (withState ext) (ManagedCertificate id) (st, x)) = Some e ∧
  ∃ en, (world (run (withState ext) (ManagedCertificate id) (st, x))).1 !! id
          = Some en ∧
        SslCertificateName en = n ∧ SoftDeleted en = true.
Proof.
  paths; intros Hcut; cut_trace Hcut.
  all: split; [reflexivity |]; rewrite ?lookup_insert_eq;
    eexists; split_and!; reflexivity.
Qed.

(** A pass that finds the entry marked soft deleted goes for the remote
    delete of the recorded name: through the soft-delete branch when the
    desired resource is there, through the branch of the absent resource
    when it is not; it does nothing when the lister fails otherwise. *)
Lemma marked_entry_is_cleaned_up (id : CertId)
    (st : gmap CertId StateEntry) (x : E) (en : StateEntry) :
  st !! id = Some en →
  SoftDeleted en = true →
  (∃ mcrt r post,
     trace (run (withState ext) (ManagedCertificate id) (st, x)) =
       EListerGet (Namespace id) (Name id) (inl mcrt)
         :: EGetSslCertificateName id (inl (SslCertificateName en))
         :: EIsSoftDeleted id (inl true)
         :: ESetSoftDeleted id None
         :: ESslDelete (SslCertificateName en) (Some mcrt) r :: post)
  ∨ (∃ e0 r post,
       http_IsNotFound e0 = true ∧
       trace (run (withState ext) (ManagedCertificate id) (st, x)) =
         EListerGet (Namespace id) (Name id) (inr e0)
           :: EGetSslCertificateName id (inl (SslCertificateName en))
           :: ESetSoftDeleted id None
           :: ESslDelete (SslCertificateName en) None r :: post)
  ∨ (∃ e0,
       http_IsNotFound e0 = false ∧
       trace (run (withState ext) (ManagedCertificate id) (st, x)) =
         [EListerGet (Namespace id) (Name id) (inr e0)] ∧
       result (run (withState ext) (ManagedCertificate id) (st, x)) = Some e0).
Proof.
  paths; intros Hen Hsd; simplify_eq/=.
  all: first
    [ left; do 3 eexists; reflexivity
    | right; left; do 3 eexists; (split; [| reflexivity]); assumption
    | right; right; eexists; (split_and!; [| reflexivity..]); assumption ].
Qed.

(** *** The claims about passes in a row *)

(** C7.  Over passes in a row for one identity, with the in-memory store:
    while the identity is excluded from the SLO nothing is observed, and
    once the latency is reported nothing is observed either, until the entry
    is removed; each observation is followed at once by the setting of the
    reported flag, which succeeds; and between two observations the entry
    was removed. *)
Theorem latency_observed_once_per_entry (id : CertId) :
  (∀ k st x t1 a t3,
     excluded st id = true →
     trace (passes (withState ext) (replicate k id) (st, x)) =
       t1 ++ EObserveSslCertificateCreationLatency a :: t3 →
     EStateDelete id ∈ t1)
  ∧
  (∀ k st x t1 a t3,
     reported st id = true →
     trace (passes (withState ext) (replicate k id) (st, x)) =
       t1 ++ EObserveSslCertificateCreationLatency a :: t3 →
     EStateDelete id ∈ t1)
  ∧
  (∀ k st x t1 a t3,
     trace (passes (withState ext) (replicate k id) (st, x)) =
       t1 ++ EObserveSslCertificateCreationLatency a :: t3 →
     head t3 = Some (ESetSslCertificateCreationReported id None))
  ∧
  (∀ k st x t1 a t2 b t3,
     trace (passes (withState ext) (replicate k id) (st, x)) =
       t1 ++ EObserveSslCertificateCreationLatency a
          :: t2 ++ EObserveSslCertificateCreationLatency b :: t3 →
     EStateDelete id ∈ t2).
Proof.
  split_and!.
  - intros k st x t1 a t3.
    apply (flag_blocks_observe excluded);
      [apply excluded_no_observe | apply excluded_stays].
  - intros k st x t1 a t3.
    apply (flag_blocks_observe reported);
      [apply reported_no_observe | apply reported_stays].
  - intros k st x t1 a t3. apply reported_right_after_observe.
  - intros k st x t1 a t2 b t3. apply observed_once_per_entry.
Qed.

(** C10, as amended.  On every path the entry is marked soft deleted right
    before the remote delete is issued.  With the in-memory store, a pass
    that fails at the remote delete returns that error and leaves the entry
    in place, with its name, marked soft deleted; the next pass then goes
    for the remote delete of that name again: through the soft-delete
    branch when the desired resource is there, through the branch of the
    absent resource when it is not, and not at all when the lister fails
    with another error. *)
Theorem cleanup_resumes_after_failed_delete (id : CertId) :
  (∀ (W : Type) (h : Handler W) (w : W) pre n m r post,
     trace (run h (ManagedCertificate id) w) = pre ++ ESslDelete n m r :: post →
     last pre = Some (ESetSoftDeleted id None))
  ∧
  (∀ st x pre n m e,
     trace (run (withState ext) (ManagedCertificate id) (st, x)) =
       pre ++ [ESslDelete n m (Some e)] →
     result (run (withState ext) (ManagedCertificate id) (st, x)) = Some e ∧
     ∃ en,
       (world (run (withState ext) (ManagedCertificate id) (st, x))).1 !! id
         = Some en ∧
       SslCertificateName en = n ∧ SoftDeleted en = true)
  ∧
  (∀ st x en,
     st !! id = Some en →
     SoftDeleted en = true →
     (∃ mcrt r post,
        trace (run (withState ext) (ManagedCertificate id) (st, x)) =
          EListerGet (Namespace id) (Name id) (inl mcrt)
            :: EGetSslCertificateName id (inl (SslCertificateName en))
            :: EIsSoftDeleted id (inl true)
            :: ESetSoftDeleted id None
            :: ESslDelete (SslCertificateName en) (Some mcrt) r :: post)
     ∨ (∃ e0 r post,
          http_IsNotFound e0 = true ∧
          trace (run (withState ext) (ManagedCertificate id) (st, x)) =
            EListerGet (Namespace id) (Name id) (inr e0)
              :: EGetSslCertificateName id (inl (SslCertificateName en))
              :: ESetSoftDeleted id None
              :: ESslDelete (SslCertificateName en) None r :: post)
     ∨ (∃ e0,
          http_IsNotFound e0 = false ∧
          trace (run (withState ext) (ManagedCertificate id) (st, x)) =
            [EListerGet (Namespace id) (Name id) (inr e0)] ∧
          result (run (withState ext) (ManagedCertificate id) (st, x)) = Some e0)).
Proof.
  split_and!.
  - intros W h w pre n m r post. apply marked_soft_deleted_before_delete.
  - intros st x pre n m e. apply failed_delete_keeps_entry_marked.
  - intros st x en. apply marked_entry_is_cleaned_up.
Qed.

(** *** More about the in-memory store *)

(** X13.  With the in-memory store, a pass leaves the entries of all other
    identities as they are. *)
Theorem pass_keeps_other_entries (id id' : CertId)
    (st : gmap CertId StateEntry) (x : E) :
  id ≠ id' →
  (world (run (withState ext) (ManagedCertificate id) (st, x))).1 !! id' =
    st !! id'.
Proof.
  intros Hne.
  unfold ManagedCertificate, ensureSslCertificate, deleteSslCertificate,
    observeSslCertificateCreationLatencyIfNeeded, ensureSslCertificateName,
    http_IgnoreNotFound.
  repeat first
    [ progress cbn
    | progress unfold flag_of, set_flag, set_name
    | rewrite lookup_insert_eq
    | rewrite (lookup_insert_ne _ id id') by done
    | rewrite (lookup_delete_ne _ id id') by done
    | match goal with
      | L : st !! id = _ |- context [st !! id] => rewrite L
      | |- context [st !! id] =>
          let L := fresh "L" in destruct (st !! id) as [[? ? ? ?]|] eqn:L
      end
    | answer | branch ].
  all: reflexivity.
Qed.

(** X14.  With the in-memory store, a pass for a tracked identity generates
    and stores no name; it either ends by removing the entry or keeps it
    with the same name and the same exclusion flag, and never lowers the
    soft-deleted or the reported flag. *)
Theorem pass_keeps_the_recorded_name (id : CertId)
    (st : gmap CertId StateEntry) (x : E) (en : StateEntry) :
  st !! id = Some en →
  Forall (λ ev, is_naming ev = false)
    (trace (run (withState ext) (ManagedCertificate id) (st, x))) ∧
  ((last (trace (run (withState ext) (ManagedCertificate id) (st, x)))
      = Some (EStateDelete id) ∧
    (world (run (withState ext) (ManagedCertificate id) (st, x))).1 !! id = None)
   ∨ (∃ en',
        (world (run (withState ext) (ManagedCertificate id) (st, x))).1 !! id
          = Some en' ∧
        SslCertificateName en' = SslCertificateName en ∧
        ExcludedFromSLO en' = ExcludedFromSLO en ∧
        (SoftDeleted en = true → SoftDeleted en' = true) ∧
        (SslCertificateCreationReported en = true →
         SslCertificateCreationReported en' = true))).
Proof.
  paths; intros Hen; simplify_eq/=.
  all: split; [all_events |].
  all: first
    [ left; split; reflexivity
    | right; eexists; split_and!; [first [reflexivity | eassumption] | done..] ].
Qed.

(** X15.  With the in-memory store, the name ensureSslCertificateName returns,
    recorded before or generated now, is what the next call returns with a
    single lookup. *)
Theorem ensured_name_is_found_again (id : CertId)
    (st : gmap CertId StateEntry) (x : E) (n : string) :
  result (run (withState ext) (ensureSslCertificateName id) (st, x)) = inl n →
  result (run (withState ext) (ensureSslCertificateName id)
            (world (run (withState ext) (ensureSslCertificateName id) (st, x))))
    = inl n ∧
  trace (run (withState ext) (ensureSslCertificateName id)
           (world (run (withState ext) (ensureSslCertificateName id) (st, x))))
    = [EGetSslCertificateName id (inl n)].
Proof.
  unfold ensureSslCertificateName. explore; intros Hres; by simplify_eq.
Qed.

(** X16.  With the in-memory store, a pass that finds the resource and no
    entry asks for a name; if that fails it returns the error and the store
    is unchanged; otherwise it stores the name, reads the new entry as not
    soft deleted and checks whether a certificate of that name exists. *)
Theorem untracked_resource_gets_a_fresh_entry (id : CertId)
    (st : gmap CertId StateEntry) (x : E)
    (mcrt : apis_ManagedCertificate) (post : list Event) :
  st !! id = None →
  trace (run (withState ext) (ManagedCertificate id) (st, x)) =
    EListerGet (Namespace id) (Name id) (inl mcrt) :: post →
  (∃ e,
     post = [EGetSslCertificateName id (inr errors_ErrManagedCertificateNotFound);
             ERandomName (inr e)] ∧
     result (run (withState ext) (ManagedCertificate id) (st, x)) = Some e ∧
     (world (run (withState ext) (ManagedCertificate id) (st, x))).1 = st)
  ∨ (∃ n r post',
       post = EGetSslCertificateName id (inr errors_ErrManagedCertificateNotFound)
                :: ERandomName (inl n)
                :: ESetSslCertificateName id n
                :: EIsSoftDeleted id (inl false)
                :: ESslExists n (Some mcrt) r :: post').
Proof.
  paths; intros Hnone Hcut; simplify_eq.
  all: first
    [ left; eexists; split_and!; reflexivity
    | right; do 3 eexists; reflexivity ].
Qed.

(** The entry is gone once a pass has ended by removing it. *)
Lemma removed_entry_is_gone (id : CertId)
    (st : gmap CertId StateEntry) (x : E) :
  last (trace (run (withState ext) (ManagedCertificate id) (st, x)))
    = Some (EStateDelete id) →
  (world (run (withState ext) (ManagedCertificate id) (st, x))).1 !! id = None.
Proof.
  paths; intros Hlast; simplify_eq/=; reflexivity.
Qed.

(** Absent and untracked: two reads, and the store is as it was. *)
Lemma absent_and_untracked_changes_nothing (id : CertId)
    (st : gmap CertId StateEntry) (x : E) (e0 : error) (post : list Event) :
  st !! id = None →
  trace (run (withState ext) (ManagedCertificate id) (st, x)) =
    EListerGet (Namespace id) (Name id) (inr e0) :: post →
  http_IsNotFound e0 = true →
  post = [EGetSslCertificateName id (inr errors_ErrManagedCertificateNotFound)] ∧
  result (run (withState ext) (ManagedCertificate id) (st, x)) = None ∧
  (world (run (withState ext) (ManagedCertificate id) (st, x))).1 = st.
Proof.
  paths; intros Hnone Hcut Hnf; simplify_eq; first [congruence | done].
Qed.

(** X17.  With the in-memory store, after a pass that ended by removing the
    entry, a pass that finds the resource absent makes the two reads and
    returns nil. *)
Theorem pass_after_removal_finds_nothing_to_do (id : CertId)
    (st : gmap CertId StateEntry) (x x' : E) (e0 : error) (post : list Event) :
  last (trace (run (withState ext) (ManagedCertificate id) (st, x)))
    = Some (EStateDelete id) →
  trace (run (withState ext) (ManagedCertificate id)
           ((world (run (withState ext) (ManagedCertificate id) (st, x))).1, x')) =
    EListerGet (Namespace id) (Name id) (inr e0) :: post →
  http_IsNotFound e0 = true →
  post = [EGetSslCertificateName id (inr errors_ErrManagedCertificateNotFound)] ∧
  result (run (withState ext) (ManagedCertificate id)
            ((world (run (withState ext) (ManagedCertificate id) (st, x))).1, x'))
    = None.
Proof.
  intros Hlast Hcut Hnf.
  apply removed_entry_is_gone in Hlast.
  destruct (absent_and_untracked_changes_nothing id _ x' e0 post Hlast Hcut Hnf)
    as (Hpost & Hres & _).
  by split.
Qed.

(** X18.  With the in-memory store, a pass for a tracked identity that finds
    the certificate in place and ends with the status update has written
    nothing to the State Store, which is as it was. *)
Theorem converged_pass_keeps_the_store (id : CertId)
    (st : gmap CertId StateEntry) (x : E) (en : StateEntry)
    (n : string) (m : option apis_ManagedCertificate)
    (ns : string) (m' : apis_ManagedCertificate) (r : option error) :
  st !! id = Some en →
  ESslExists n m (inl true)
    ∈ trace (run (withState ext) (ManagedCertificate id) (st, x)) →
  last (trace (run (withState ext) (ManagedCertificate id) (st, x)))
    = Some (EClientUpdate ns m' r) →
  (world (run (withState ext) (ManagedCertificate id) (st, x))).1 = st ∧
  Forall (λ ev, state_write ev = false)
    (trace (run (withState ext) (ManagedCertificate id) (st, x))).
Proof.
  paths; intros Hen Hin Hlast; simplify_eq/=; occurs_in Hin.
  all: split; [reflexivity | all_events].
Qed.


End Stored.

(** * The scenario of the spec, run *)

Section Scenario.
#[local] Existing Instance Fake.packages.
Import Fake.

(** C1.  The specification has an error of the name lookup abort the pass
    and come back unmodified, never swallowed by generating and persisting a
    fresh name.  The code does otherwise: with the identity tracked as
    mcert-abc123, its certificate in place and the desired resource present,
    a pass whose name lookup fails with a backend error returns nil; it asks
    for a fresh name, stores mcert-xyz789 over the recorded one, finds no
    certificate of that name and creates a second one, and leaves the first
    certificate behind, no longer tracked. *)
Theorem lookup_error_is_swallowed_by_a_fresh_name :
  let o := run Worlds.outage (ManagedCertificate id1)
             (tracked [Some mcrt1] None) in
  trace o =
    [EListerGet "default" "mcrt1" (inl mcrt1);
     EGetSslCertificateName id1 (inr (Backend "state store down"));
     ERandomName (inl "mcert-xyz789");
     ESetSslCertificateName id1 "mcert-xyz789";
     EIsSoftDeleted id1 (inl false);
     ESslExists "mcert-xyz789" (Some mcrt1) (inl false);
     ESslCreate "mcert-xyz789" mcrt1 None;
     EIsExcludedFromSLO id1 (inl false);
     EIsSslCertificateCreationReported id1 (inl false);
     EObserveSslCertificateCreationLatency 1000%Z;
     ESetSslCertificateCreationReported id1 None;
     ESslGet "mcert-xyz789" (Some mcrt1)
       (inl (mkSslcert ["example.com"] "PROVISIONING"));
     EClientUpdate "default"
       (mkMcrt "default" ["example.com"] 1000 "PROVISIONING") None] ∧
  result o = None ∧
  SslCertificateName <$> (world o).1 !! id1 = Some "mcert-xyz789" ∧
  certs (world o).2 !! "mcert-abc123" = Some cert1 ∧
  is_Some (certs (world o).2 !! "mcert-xyz789").
Proof.
  intros o. split_and!; [vm_compute; reflexivity.. |].
  vm_compute. by eexists.
Qed.

Lemma name_recorded_before_create_witness :
  let t := trace (run sync (ManagedCertificate id1) (fresh [Some mcrt1])) in
  t = take 6 t ++ ESslCreate "mcert-abc123" mcrt1 None :: drop 7 t ∧
  (EGetSslCertificateName id1 (inl "mcert-abc123") ∈ take 6 t ∨
   ESetSslCertificateName id1 "mcert-abc123" ∈ take 6 t).
Proof.
  intros t.
  assert (Hcut : t = take 6 t ++ ESslCreate "mcert-abc123" mcrt1 None :: drop 7 t)
    by (vm_compute; reflexivity).
  split; [exact Hcut |].
  exact (name_recorded_before_create sync id1 _ _ _ _ _ _ Hcut).
Defined.

Lemma drift_is_remediated_unless_deletion_fails_witness :
  let o := run sync (ManagedCertificate id1) (tracked [Some mcrt2] None) in
  trace o =
    take 4 (trace o) ++ ESslGet "mcert-abc123" (Some mcrt2) (inl cert1)
      :: drop 5 (trace o) ∧
  certificates_Equal mcrt2 cert1 = false ∧
  Forall (λ ev, is_update ev = false) (trace o) ∧
  Forall (λ ev, is_create ev = false) (drop 5 (trace o)).
Proof.
  intros o.
  assert (Hcut : trace o =
            take 4 (trace o) ++ ESslGet "mcert-abc123" (Some mcrt2) (inl cert1)
              :: drop 5 (trace o)) by (vm_compute; reflexivity).
  assert (Hneq : certificates_Equal mcrt2 cert1 = false) by (vm_compute; reflexivity).
  destruct (drift_is_remediated_unless_deletion_fails sync id1 _ _ _ _ _ _
              Hcut Hneq) as (Hupd & Hcre & _).
  by split_and!.
Defined.

Lemma failed_delete_leaves_the_drift :
  ¬ drift_always_remediated id1
      (run sync (ManagedCertificate id1)
         (tracked [Some mcrt2] (Some (Backend "boom")))).
Proof.
  intros Hdrift.
  destruct (Hdrift
              (take 4 (trace (run sync (ManagedCertificate id1)
                                (tracked [Some mcrt2] (Some (Backend "boom"))))))
              "mcert-abc123" mcrt2 cert1
              [@ESetSoftDeleted packages id1 None;
               @ESslDelete packages "mcert-abc123" (Some mcrt2)
                 (Some (Backend "boom"))])
    as (_ & _ & Hres & _); [vm_compute; reflexivity.. |].
  vm_compute in Hres. discriminate Hres.
Qed.

Lemma absent_and_untracked_is_a_noop_witness :
  let o := run sync (ManagedCertificate id1) (fresh [None]) in
  result o = None ∧
  trace o =
    [EListerGet "default" "mcrt1" (inr NotFound);
     EGetSslCertificateName id1 (inr NotTracked)].
Proof.
  intros o.
  assert (Ht : trace o =
            [EListerGet "default" "mcrt1" (inr NotFound);
             EGetSslCertificateName id1 (inr NotTracked)])
    by (vm_compute; reflexivity).
  destruct (absent_and_untracked_is_a_noop sync id1 (fresh [None]) NotFound)
    as (Hres & Htr & _).
  - fold o. rewrite Ht. occurs.
  - reflexivity.
  - fold o. rewrite Ht. occurs.
  - by split.
Defined.

Lemma ensureSslCertificateName_is_idempotent_witness :
  let o := run sync (repeatedly 3 (ensureSslCertificateName id1)) orphaned in
  result o = replicate 3 (inl "mcert-abc123") ∧
  trace o = replicate 3 (EGetSslCertificateName id1 (inl "mcert-abc123")).
Proof.
  intros o.
  destruct (ensureSslCertificateName_is_idempotent sync (λ w, w = orphaned)
              id1 "mcert-abc123" 3 orphaned) as (Hres & Htr & _).
  - intros w' ->. split; vm_compute; reflexivity.
  - reflexivity.
  - by split.
Defined.

Lemma create_only_after_exists_false_witness :
  let t := trace (run sync (ManagedCertificate id1) (fresh [Some mcrt1])) in
  t = take 6 t ++ ESslCreate "mcert-abc123" mcrt1 None :: drop 7 t ∧
  last (take 6 t) = Some (ESslExists "mcert-abc123" (Some mcrt1) (inl false)) ∧
  Forall (λ ev, is_create ev = false) (take 6 t ++ drop 7 t).
Proof.
  intros t.
  assert (Hcut : t = take 6 t ++ ESslCreate "mcert-abc123" mcrt1 None :: drop 7 t)
    by (vm_compute; reflexivity).
  split; [exact Hcut |].
  exact (create_only_after_exists_false sync id1 _ _ _ _ _ _ Hcut).
Defined.

Lemma latency_observed_once_per_entry_witness :
  let t := trace (passes sync (replicate 3 id1)
                    (fresh [Some mcrt1; Some mcrt2])) in
  t = take 9 t ++ EObserveSslCertificateCreationLatency 1000%Z
        :: take 20 (drop 10 t) ++ EObserveSslCertificateCreationLatency 1000%Z
        :: drop 31 t ∧
  EStateDelete id1 ∈ take 20 (drop 10 t).
Proof.
  intros t.
  assert (Hcut : t =
            take 9 t ++ EObserveSslCertificateCreationLatency 1000%Z
              :: take 20 (drop 10 t) ++ EObserveSslCertificateCreationLatency 1000%Z
              :: drop 31 t) by (vm_compute; reflexivity).
  split; [exact Hcut |].
  destruct (latency_observed_once_per_entry cloud id1) as (_ & _ & _ & Honce).
  exact (Honce 3 _ _ _ _ _ _ _ Hcut).
Defined.

Lemma not_found_on_delete_counts_as_deleted_witness :
  let o := run sync (ManagedCertificate id1) orphaned in
  trace o =
    take 3 (trace o) ++ ESslDelete "mcert-abc123" None (Some NotFound)
      :: drop 4 (trace o) ∧
  http_IsNotFound NotFound = true ∧
  drop 4 (trace o) = [EStateDelete id1].
Proof.
  intros o.
  assert (Hcut : trace o =
            take 3 (trace o) ++ ESslDelete "mcert-abc123" None (Some NotFound)
              :: drop 4 (trace o)) by (vm_compute; reflexivity).
  destruct (not_found_on_delete_counts_as_deleted sync id1 _ _ _ _ _ _ Hcut)
    as [Hpost _].
  - right. by exists NotFound.
  - by split_and!.
Defined.

Lemma entry_removed_only_after_remote_delete_witness :
  let o := run sync (ManagedCertificate id1) orphaned in
  trace o = take 4 (trace o) ++ EStateDelete id1 :: drop 5 (trace o) ∧
  drop 5 (trace o) = [] ∧
  ∃ n m r, last (take 4 (trace o)) = Some (ESslDelete n m r).
Proof.
  intros o.
  assert (Hcut : trace o = take 4 (trace o) ++ EStateDelete id1 :: drop 5 (trace o))
    by (vm_compute; reflexivity).
  destruct (entry_removed_only_after_remote_delete sync id1 _ _ _ _ Hcut)
    as (_ & Hpost & n & m & r & Hlast & _).
  split_and!; [exact Hcut | exact Hpost | by exists n, m, r].
Defined.

Lemma cleanup_resumes_after_failed_delete_witness :
  let o := run sync (ManagedCertificate id1)
             (tracked [None] (Some (Backend "boom"))) in
  trace o =
    take 3 (trace o) ++ [ESslDelete "mcert-abc123" None (Some (Backend "boom"))] ∧
  result o = Some (Backend "boom") ∧
  ∃ en, (world o).1 !! id1 = Some en ∧
        SslCertificateName en = "mcert-abc123" ∧ SoftDeleted en = true.
Proof.
  intros o.
  assert (Hcut : trace o =
            take 3 (trace o) ++
              [ESslDelete "mcert-abc123" None (Some (Backend "boom"))])
    by (vm_compute; reflexivity).
  destruct (cleanup_resumes_after_failed_delete cloud id1) as (_ & Hfail & _).
  destruct (Hfail _ _ _ _ _ _ Hcut) as [Hres Hen].
  by split_and!.
Defined.

Lemma absent_resource_is_not_cleaned_up_through_soft_delete :
  ¬ resumes_through_soft_delete_branch id1
      (run sync (ManagedCertificate id1) (tracked [None] (Some (Backend "boom"))))
      (run sync (ManagedCertificate id1)
         (world (run sync (ManagedCertificate id1)
                   (tracked [None] (Some (Backend "boom")))))).
Proof.
  intros Hresume.
  specialize (Hresume
    (take 3 (trace (run sync (ManagedCertificate id1)
                      (tracked [None] (Some (Backend "boom"))))))
    "mcert-abc123" None (Backend "boom")).
  assert (Hin := Hresume ltac:(vm_compute; reflexivity)).
  assert (Ht : trace (run sync (ManagedCertificate id1)
                 (world (run sync (ManagedCertificate id1)
                           (tracked [None] (Some (Backend "boom")))))) =
            [EListerGet "default" "mcrt1" (inr NotFound);
             EGetSslCertificateName id1 (inl "mcert-abc123");
             ESetSoftDeleted id1 None;
             ESslDelete "mcert-abc123" None None;
             EStateDelete id1]) by (vm_compute; reflexivity).
  rewrite Ht in Hin. occurs_in Hin.
Qed.

End Scenario.

(** * More runs of the scenario *)

Section MoreScenario.
#[local] Existing Instance Fake.packages.
Import Fake Worlds.

Lemma collaborator_errors_abort_the_pass_witness :
  let o := run sync (ManagedCertificate id1)
             (tracked [Some mcrt2] (Some (Backend "boom"))) in
  let ev := ESslDelete "mcert-abc123" (Some mcrt2) (Some (Backend "boom")) in
  trace o = take 6 (trace o) ++ [ev] ∧
  collaborator_error ev = Some (Backend "boom") ∧
  result o = Some (Backend "boom").
Proof.
  intros o ev.
  destruct (collaborator_errors_abort_the_pass sync id1
              (tracked [Some mcrt2] (Some (Backend "boom")))) as [Habort _].
  destruct (Habort (take 6 (trace o)) ev [] (Backend "boom")) as [_ Hres];
    [vm_compute; reflexivity.. |].
  split_and!; [vm_compute; reflexivity.. | exact Hres].
Defined.

Lemma remote_calls_use_the_recorded_name_witness :
  let t := trace (run sync (ManagedCertificate id1) (fresh [Some mcrt1])) in
  t = take 5 t ++ ESslExists "mcert-abc123" (Some mcrt1) (inl false) :: drop 6 t ∧
  (EGetSslCertificateName id1 (inl "mcert-abc123") ∈ take 5 t ∨
   ESetSslCertificateName id1 "mcert-abc123" ∈ take 5 t).
Proof.
  intros t.
  assert (Hcut : t = take 5 t ++
            ESslExists "mcert-abc123" (Some mcrt1) (inl false) :: drop 6 t)
    by (vm_compute; reflexivity).
  split; [exact Hcut |].
  exact (remote_calls_use_the_recorded_name sync id1 _ _ _ _ _ Hcut eq_refl).
Defined.

Lemma soft_deleted_resource_is_only_deleted_witness :
  let t := trace (run sync (ManagedCertificate id1) (flagged true false)) in
  t = take 2 t ++ EIsSoftDeleted id1 (inl true) :: drop 3 t ∧
  Forall (λ ev, ssl_call ev = is_delete ev ∧ is_update ev = false ∧
                is_observe ev = false) t.
Proof.
  intros t.
  assert (Hcut : t = take 2 t ++ EIsSoftDeleted id1 (inl true) :: drop 3 t)
    by (vm_compute; reflexivity).
  split; [exact Hcut |].
  exact (proj2 (soft_deleted_resource_is_only_deleted sync id1 _ _ _ Hcut)).
Defined.

Lemma status_is_written_back_only_when_in_sync_witness :
  let o := run sync (ManagedCertificate id1) (fresh [Some mcrt1]) in
  (∃ m, trace o = take 12 (trace o) ++ EClientUpdate "default" m None
                    :: drop 13 (trace o)) ∧
  drop 13 (trace o) = [] ∧ result o = None.
Proof.
  intros o.
  assert (Hcut : trace o =
            take 12 (trace o) ++
              EClientUpdate "default"
                (mkMcrt "default" ["example.com"] 1000 "PROVISIONING") None
              :: drop 13 (trace o)) by (vm_compute; reflexivity).
  destruct (status_is_written_back_only_when_in_sync sync id1 _ _ _ _ _ _ Hcut)
    as (Hpost & Hres & _).
  split_and!; [by eexists | exact Hpost | exact Hres].
Defined.

Lemma failed_name_generation_writes_nothing_witness :
  let o := run sync (ManagedCertificate id1) nameless in
  trace o = take 2 (trace o) ++ [ERandomName (inr (Backend "no name"))] ∧
  result o = Some (Backend "no name") ∧
  Forall (λ ev, state_write ev = false ∧ ssl_call ev = false) (trace o).
Proof.
  intros o.
  assert (Hcut : trace o =
            take 2 (trace o) ++ [ERandomName (inr (Backend "no name"))])
    by (vm_compute; reflexivity).
  destruct (failed_name_generation_writes_nothing sync id1 _ _ _ _ Hcut)
    as (_ & Hres & Hall).
  by split_and!.
Defined.

Lemma latency_is_observed_for_the_listed_resource_witness :
  let t := trace (run sync (ManagedCertificate id1) (fresh [Some mcrt1])) in
  t = take 9 t ++ EObserveSslCertificateCreationLatency 1000%Z :: drop 10 t ∧
  ∃ n m, ESslCreate n m None ∈ take 9 t ∧ mcrt_CreationTime m = inl 1000%Z.
Proof.
  intros t.
  assert (Hcut : t = take 9 t ++
            EObserveSslCertificateCreationLatency 1000%Z :: drop 10 t)
    by (vm_compute; reflexivity).
  destruct (latency_is_observed_for_the_listed_resource sync id1 _ _ _ _ Hcut)
    as (n & m & _ & Hcre & Htime).
  split; [exact Hcut | by exists n, m].
Defined.

Lemma skipping_the_metric_does_not_stop_the_pass_witness :
  let t := trace (run sync (ManagedCertificate id1) (flagged false true)) in
  t = take 5 t ++ EIsExcludedFromSLO id1 (inl true) :: drop 6 t ∧
  (∃ n m r, head (drop 6 t) = Some (ESslGet n (Some m) r)) ∧
  Forall (λ ev, is_observe ev = false ∧ is_report ev = false) t.
Proof.
  intros t.
  assert (Hcut : t = take 5 t ++ EIsExcludedFromSLO id1 (inl true) :: drop 6 t)
    by (vm_compute; reflexivity).
  split; [exact Hcut |].
  exact (skipping_the_metric_does_not_stop_the_pass sync id1 _ _ _ _ Hcut
           (or_introl eq_refl)).
Defined.

Lemma success_is_a_noop_a_removal_or_an_update_witness :
  let o := run sync (ManagedCertificate id1) orphaned in
  result o = None ∧
  ((∃ e0, trace o =
            [EListerGet (Namespace id1) (Name id1) (inr e0);
             EGetSslCertificateName id1 (inr NotTracked)])
   ∨ (last (trace o) = Some (EStateDelete id1) ∧
      Forall (λ ev, ssl_call ev = is_delete ev) (trace o))
   ∨ (∃ ns m, last (trace o) = Some (EClientUpdate ns m None))).
Proof.
  intros o.
  assert (Hres : result o = None) by (vm_compute; reflexivity).
  split; [exact Hres |].
  exact (success_is_a_noop_a_removal_or_an_update sync id1 orphaned Hres).
Defined.

Lemma pass_keeps_other_entries_witness :
  id1 ≠ id2 ∧
  (world (run sync (ManagedCertificate id1) (flagged true false))).1 !! id2 =
    Some (mkStateEntry "mcert-other" false false false).
Proof.
  assert (Hne : id1 ≠ id2) by discriminate.
  split; [exact Hne |].
  etrans;
    [ exact (pass_keeps_other_entries cloud id1 id2
               (flagged true false).1 (flagged true false).2 Hne)
    | vm_compute; reflexivity ].
Defined.

Lemma pass_keeps_the_recorded_name_witness :
  let o := run sync (ManagedCertificate id1) (tracked [Some mcrt1] None) in
  (tracked [Some mcrt1] None).1 !! id1 = Some entry1 ∧
  Forall (λ ev, is_naming ev = false) (trace o).
Proof.
  intros o.
  assert (Hen : (tracked [Some mcrt1] None).1 !! id1 = Some entry1)
    by (vm_compute; reflexivity).
  split; [exact Hen |].
  exact (proj1 (pass_keeps_the_recorded_name cloud id1
                  (tracked [Some mcrt1] None).1 (tracked [Some mcrt1] None).2 _ Hen)).
Defined.

Lemma ensured_name_is_found_again_witness :
  let o := run sync (ensureSslCertificateName id1) (fresh [Some mcrt1]) in
  result o = inl "mcert-abc123" ∧
  result (run sync (ensureSslCertificateName id1) (world o)) = inl "mcert-abc123" ∧
  trace (run sync (ensureSslCertificateName id1) (world o)) =
    [EGetSslCertificateName id1 (inl "mcert-abc123")].
Proof.
  intros o.
  assert (Hres : result o = inl "mcert-abc123") by (vm_compute; reflexivity).
  split; [exact Hres |].
  exact (ensured_name_is_found_again cloud id1
           (fresh [Some mcrt1]).1 (fresh [Some mcrt1]).2 _ Hres).
Defined.

Lemma untracked_resource_gets_a_fresh_entry_witness :
  let o := run sync (ManagedCertificate id1) (fresh [Some mcrt1]) in
  (fresh [Some mcrt1]).1 !! id1 = None ∧
  trace o = EListerGet "default" "mcrt1" (inl mcrt1) :: drop 1 (trace o) ∧
  ∃ n r post',
    drop 1 (trace o) =
      EGetSslCertificateName id1 (inr NotTracked)
        :: ERandomName (inl n) :: ESetSslCertificateName id1 n
        :: EIsSoftDeleted id1 (inl false)
        :: ESslExists n (Some mcrt1) r :: post'.
Proof.
  intros o.
  assert (Hnone : (fresh [Some mcrt1]).1 !! id1 = None) by (vm_compute; reflexivity).
  assert (Hcut : trace o =
            EListerGet "default" "mcrt1" (inl mcrt1) :: drop 1 (trace o))
    by (vm_compute; reflexivity).
  split_and!; [exact Hnone | exact Hcut |].
  destruct (untracked_resource_gets_a_fresh_entry cloud id1
              (fresh [Some mcrt1]).1 (fresh [Some mcrt1]).2 _ _ Hnone Hcut)
    as [(e & Hpost & _) | Hfresh]; [| exact Hfresh].
  vm_compute in Hpost. discriminate Hpost.
Defined.

Lemma pass_after_removal_finds_nothing_to_do_witness :
  let o1 := run sync (ManagedCertificate id1) orphaned in
  let o2 := run sync (ManagedCertificate id1) ((world o1).1, (world o1).2) in
  last (trace o1) = Some (EStateDelete id1) ∧
  trace o2 = EListerGet "default" "mcrt1" (inr NotFound) :: drop 1 (trace o2) ∧
  drop 1 (trace o2) = [EGetSslCertificateName id1 (inr NotTracked)] ∧
  result o2 = None.
Proof.
  intros o1 o2.
  assert (Hlast : last (trace o1) = Some (EStateDelete id1))
    by (vm_compute; reflexivity).
  assert (Hcut : trace o2 =
            EListerGet "default" "mcrt1" (inr NotFound) :: drop 1 (trace o2))
    by (vm_compute; reflexivity).
  split_and!; [exact Hlast | exact Hcut | |];
    apply (pass_after_removal_finds_nothing_to_do cloud id1
             orphaned.1 orphaned.2 (world o1).2 _ _ Hlast Hcut eq_refl).
Defined.

Lemma converged_pass_keeps_the_store_witness :
  let o := run sync (ManagedCertificate id1) (tracked [Some mcrt1] None) in
  ESslExists "mcert-abc123" (Some mcrt1) (inl true) ∈ trace o ∧
  (world o).1 = (tracked [Some mcrt1] None).1 ∧
  Forall (λ ev, state_write ev = false) (trace o).
Proof.
  intros o.
  assert (Hin : ESslExists "mcert-abc123" (Some mcrt1) (inl true) ∈ trace o).
  { replace (trace o) with
      (take 3 (trace o) ++
         ESslExists "mcert-abc123" (Some mcrt1) (inl true) :: drop 4 (trace o))
      by (vm_compute; reflexivity).
    apply elem_of_app. right. apply list_elem_of_here. }
  split; [exact Hin |].
  apply (converged_pass_keeps_the_store cloud id1
           (tracked [Some mcrt1] None).1 (tracked [Some mcrt1] None).2
           entry1 "mcert-abc123" (Some mcrt1) "default"
           (mkMcrt "default" ["example.com"] 1000 "ACTIVE") None);
    [vm_compute; reflexivity | exact Hin | vm_compute; reflexivity].
Defined.

End MoreScenario.

Section BrokenScenario.
#[local] Existing Instance Worlds.broken.
Import Fake Worlds.

Lemma lister_error_is_returned_witness :
  let o := run calm (ManagedCertificate id1) (mkMood true false) in
  trace o = [EListerGet "default" "mcrt1" (inr (Backend "lister"))] ∧
  result o = Some (Backend "lister").
Proof.
  intros o.
  assert (Hcut : trace o = [EListerGet "default" "mcrt1" (inr (Backend "lister"))])
    by (vm_compute; reflexivity).
  split; [exact Hcut |].
  exact (proj2 (lister_error_is_returned calm id1 _ _ _ Hcut eq_refl)).
Defined.

Lemma failed_status_copy_is_returned_witness :
  let o := run calm (ManagedCertificate id1) (mkMood false true) in
  trace o = take 4 (trace o) ++ [ESslGet "mcert-abc123" (Some mcrt1) (inl cert1)] ∧
  certificates_Equal mcrt1 cert1 = true ∧
  result o = Some (Backend "status").
Proof.
  intros o.
  assert (Hcut : trace o =
            take 4 (trace o) ++ [ESslGet "mcert-abc123" (Some mcrt1) (inl cert1)])
    by (vm_compute; reflexivity).
  split_and!; [exact Hcut | reflexivity |].
  exact (proj2 (failed_status_copy_is_returned calm id1 _ _ _ _ _ _ mcrt1
                  (Backend "status") Hcut eq_refl eq_refl)).
Defined.

Lemma unreadable_creation_time_aborts_after_create_witness :
  let o := run calm (ManagedCertificate id1) (mkMood false false) in
  trace o =
    take 6 (trace o) ++ [EIsSslCertificateCreationReported id1 (inl false)] ∧
  (∃ e, result o = Some e) ∧
  Forall (λ ev, is_observe ev = false ∧ is_report ev = false) (trace o).
Proof.
  intros o.
  assert (Hcut : trace o =
            take 6 (trace o) ++ [EIsSslCertificateCreationReported id1 (inl false)])
    by (vm_compute; reflexivity).
  split; [exact Hcut |].
  destruct (unreadable_creation_time_aborts_after_create calm id1 _ _ Hcut)
    as [(n & m & e & _ & _ & Hres) Hquiet].
  split; [by exists e | exact Hquiet].
Defined.

End BrokenScenario.
